(** * Gigabyte RGB Fusion 2.0 driver ([liquidctl/driver/rgb_fusion2.py])

    A shallow embedding of the driver and the properties of its wire
    protocol: the lookup tables, the construction of the 64-byte feature
    reports, the write/commit sequence of [set_color] and
    [reset_all_channels], and the decoding of the initialization response.

    Modelling conventions.
    - Python integers are [Z]; a report is a [list Z].
    - Python strings are [string]; [lower] is [str.lower] on ASCII text
      (only [A]-[Z] are changed, every key of the tables is ASCII).
    - A [dict] is an association list in definition order, because
      [_COLOR_CHANNELS.values()] is iterated in that order.
    - The driver runs in a small state-and-exception monad over a [world]
      that records every call made on [self.device], the response the
      device will give to a read, how many transport calls succeed before
      the transport raises, and the records passed to [LOGGER.warning]. *)

From Stdlib Require Import ZArith List String Ascii Bool Lia DecimalString
  DecimalZ.
Import ListNotations.

Open Scope string_scope.
Open Scope list_scope.
Open Scope Z_scope.

(** ** Python values and exceptions *)

Inductive exn : Type :=
| KeyError (key : string)
| ValueError (msg : string)
| IndexError
| TypeError
| AssertionError
| TransportError.

Inductive result (A : Type) : Type :=
| Ok (a : A)
| Raise (e : exn).
Arguments Ok {A} a.
Arguments Raise {A} e.

(** [str.lower] restricted to ASCII. *)
Definition lower_ascii (c : ascii) : ascii :=
  let n := N_of_ascii c in
  if ((65 <=? n) && (n <=? 90))%N then ascii_of_N (n + 32) else c.

Fixpoint lower (s : string) : string :=
  match s with
  | EmptyString => EmptyString
  | String c t => String (lower_ascii c) (lower t)
  end.

(** Dictionaries, in definition order. *)
Definition dict (V : Type) : Type := list (string * V).

Fixpoint dict_find {V : Type} (d : dict V) (k : string) : option V :=
  match d with
  | [] => None
  | (k', v) :: t => if String.eqb k' k then Some v else dict_find t k
  end.

(** [d[k]] *)
Definition getitem {V : Type} (d : dict V) (k : string) : result V :=
  match dict_find d k with
  | Some v => Ok v
  | None => Raise (KeyError k)
  end.

(** [d.values()] *)
Definition values {V : Type} (d : dict V) : list V := map snd d.

(** ** Constants and lookup tables *)

Definition _REPORT_ID : Z := 0xcc.
Definition _INIT_CMD : Z := 0x60.
Definition _READ_LENGTH : Z := 64.
Definition _WRITE_LENGTH : Z := 64.

Definition _COLOR_CHANNELS : dict (Z * Z) :=
  [ ("led1", (0x20, 0x01));
    ("led2", (0x21, 0x02));
    ("led3", (0x22, 0x04));
    ("led4", (0x23, 0x08));
    ("led5", (0x24, 0x10));
    ("led6", (0x25, 0x20));
    ("led7", (0x26, 0x40)) ].

Definition _PULSE_SPEEDS : dict (list Z) :=
  [ ("slowest",   [0x40; 0x06; 0x40; 0x06; 0x20; 0x03]);
    ("slower",    [0x78; 0x05; 0x78; 0x05; 0xbc; 0x02]);
    ("normal",    [0xb0; 0x04; 0xb0; 0x04; 0xf4; 0x01]);
    ("faster",    [0xe8; 0x03; 0xe8; 0x03; 0xf4; 0x01]);
    ("fastest",   [0x84; 0x03; 0x84; 0x03; 0xc2; 0x01]);
    ("ludicrous", [0x20; 0x03; 0x20; 0x03; 0x90; 0x01]) ].

Definition _FLASH_SPEEDS : dict (list Z) :=
  [ ("slowest",   [0x64; 0x00; 0x64; 0x00; 0x60; 0x09]);
    ("slower",    [0x64; 0x00; 0x64; 0x00; 0x90; 0x08]);
    ("normal",    [0x64; 0x00; 0x64; 0x00; 0xd0; 0x07]);
    ("faster",    [0x64; 0x00; 0x64; 0x00; 0x08; 0x07]);
    ("fastest",   [0x64; 0x00; 0x64; 0x00; 0x40; 0x06]);
    ("ludicrous", [0x64; 0x00; 0x64; 0x00; 0x78; 0x05]) ].

(** The second key is written with a trailing blank in the source. *)
Definition _DOUBLE_FLASH_SPEEDS : dict (list Z) :=
  [ ("slowest",   [0x64; 0x00; 0x64; 0x00; 0x28; 0x0a]);
    ("slower ",   [0x64; 0x00; 0x64; 0x00; 0x60; 0x09]);
    ("normal",    [0x64; 0x00; 0x64; 0x00; 0x90; 0x08]);
    ("faster",    [0x64; 0x00; 0x64; 0x00; 0xd0; 0x07]);
    ("fastest",   [0x64; 0x00; 0x64; 0x00; 0x08; 0x07]);
    ("ludicrous", [0x64; 0x00; 0x64; 0x00; 0x40; 0x06]) ].

Definition _COLOR_CYCLE_SPEEDS : dict (list Z) :=
  [ ("slowest",   [0x78; 0x05; 0xb0; 0x04; 0x00; 0x00]);
    ("slower",    [0x7e; 0x04; 0x1a; 0x04; 0x00; 0x00]);
    ("normal",    [0x52; 0x03; 0xee; 0x02; 0x00; 0x00]);
    ("faster",    [0xf8; 0x02; 0x94; 0x02; 0x00; 0x00]);
    ("fastest",   [0x26; 0x02; 0xc2; 0x01; 0x00; 0x00]);
    ("ludicrous", [0xcc; 0x01; 0x68; 0x01; 0x00; 0x00]) ].

Record _ColorMode : Type := mk_ColorMode {
  name : string;
  value : Z;
  pulses : bool;
  flash_count : Z;
  cycle_count : Z;
  max_brightness : Z;
  takes_color : bool;
  speed_values : option (dict (list Z))
}.

Definition mode_off : _ColorMode :=
  mk_ColorMode "off" 0x01 false 0 0 0 false None.
Definition mode_static : _ColorMode :=
  mk_ColorMode "static" 0x01 false 0 0 90 true None.
Definition mode_pulse : _ColorMode :=
  mk_ColorMode "pulse" 0x02 true 0 0 90 true (Some _PULSE_SPEEDS).
Definition mode_flash : _ColorMode :=
  mk_ColorMode "flash" 0x03 true 1 0 100 true (Some _FLASH_SPEEDS).
Definition mode_double_flash : _ColorMode :=
  mk_ColorMode "double-flash" 0x03 true 2 0 100 true (Some _DOUBLE_FLASH_SPEEDS).
Definition mode_color_cycle : _ColorMode :=
  mk_ColorMode "color-cycle" 0x04 false 0 7 100 false (Some _COLOR_CYCLE_SPEEDS).

(** [{mode.name: mode for mode in [...]}] *)
Definition _COLOR_MODES : dict _ColorMode :=
  map (fun mode => (name mode, mode))
      [ mode_off; mode_static; mode_pulse; mode_flash; mode_double_flash;
        mode_color_cycle ].

(** Modelled from the spec: [liquidctl.util.clamp] is imported by the driver
    and is not part of this file; the specification says the brightness is
    clamped into the closed interval from the lower to the upper bound. *)
Definition clamp (v clampmin clampmax : Z) : Z :=
  Z.max clampmin (Z.min clampmax v).

(** ** The device, the logger and the driver monad *)

(** A call made on [self.device]. *)
Inductive hid_call : Type :=
| SendFeatureReport (data : list Z)
| GetFeatureReport (report_id : Z) (length : Z)
| Release.

(** A record passed to [LOGGER.warning]: the format and its two arguments. *)
Record log_record : Type := mk_log_record {
  log_fmt : string;
  log_mode : string;
  log_count : nat
}.

Record world : Type := mk_world {
  w_calls : list hid_call;       (* calls made on the device, oldest first *)
  w_reply : list Z;              (* what the device answers to a read *)
  w_budget : option nat;         (* transport calls left before one raises *)
  w_warnings : list log_record   (* warnings emitted, oldest first *)
}.

Definition M (A : Type) : Type := world -> result A * world.

Definition ret {A : Type} (a : A) : M A := fun w => (Ok a, w).

Definition raise {A : Type} (e : exn) : M A := fun w => (Raise e, w).

Definition bind {A B : Type} (m : M A) (k : A -> M B) : M B :=
  fun w =>
    match m w with
    | (Ok a, w') => k a w'
    | (Raise e, w') => (Raise e, w')
    end.

Definition lift {A : Type} (r : result A) : M A := fun w => (r, w).

Declare Scope drv_scope.
Delimit Scope drv_scope with drv.
Notation "x <- m ;; k" := (bind m (fun x => k))
  (at level 61, m at next level, right associativity) : drv_scope.
Notation "m ;; k" := (bind m (fun _ => k))
  (at level 61, right associativity) : drv_scope.
Open Scope drv_scope.

(** One call on the device: it is recorded, unless the transport is out of
    budget, in which case it raises and nothing reaches the device. *)
Definition call_device (c : hid_call) : M unit :=
  fun w =>
    match w_budget w with
    | Some O => (Raise TransportError, w)
    | b =>
        (Ok tt,
         mk_world (w_calls w ++ [c]) (w_reply w) (option_map Nat.pred b)
                  (w_warnings w))
    end.

(** [self.device.send_feature_report(data)] *)
Definition device_send_feature_report (data : list Z) : M unit :=
  call_device (SendFeatureReport data).

(** [self.device.get_feature_report(report_id, length)] *)
Definition device_get_feature_report (report_id len : Z) : M (list Z) :=
  call_device (GetFeatureReport report_id len) ;;
  fun w => (Ok (w_reply w), w).

(** [self.device.release()] *)
Definition device_release : M unit := call_device Release.

(** [LOGGER.warning(fmt, mode_name, count)] *)
Definition LOGGER_warning (fmt mode_name : string) (count : nat) : M unit :=
  fun w =>
    (Ok tt,
     mk_world (w_calls w) (w_reply w) (w_budget w)
              (w_warnings w ++ [mk_log_record fmt mode_name count])).

(** [for x in xs: data = body(x, data)], the loop variable [data] being the
    one list object that the body of [set_color] mutates. *)
Fixpoint for_each {X S : Type} (xs : list X) (body : X -> S -> M S) (s : S)
  : M S :=
  match xs with
  | [] => ret s
  | x :: t => s' <- body x s ;; for_each t body s'
  end.

(** ** The driver *)

(** [_send_feature_report]: [[0x0]*n] is empty for a negative [n]. *)
Definition _send_feature_report (data : list Z) : M unit :=
  let padding := repeat 0x0 (Z.to_nat (_WRITE_LENGTH - Z.of_nat (List.length data))) in
  device_send_feature_report (data ++ padding).

Definition _get_feature_report (report_id : Z) : M (list Z) :=
  device_get_feature_report report_id _READ_LENGTH.

Definition _execute_report : M unit :=
  _send_feature_report [_REPORT_ID; 0x28; 0xff].

(** [data[1:3] = addr1, addr2] *)
Definition set_slice_1_3 (data : list Z) (addr1 addr2 : Z) : list Z :=
  firstn 1 data ++ [addr1; addr2] ++ skipn 3 data.

Definition set_color (channel mode : string) (colors : list (Z * Z * Z))
  (speed : string) : M unit :=
  mode <- lift (getitem _COLOR_MODES (lower mode)) ;;
  let channel := lower channel in
  let speed := lower speed in
  sc <- (if takes_color mode then
           match colors with
           | (r, g, b) :: colors' => ret ((b, g, r), colors')
           | [] =>
               raise (ValueError ("One color required for mode=" ++ name mode)%string)
           end
         else ret ((0, 0, 0), colors)) ;;
  let '((c0, c1, c2), colors) := sc in
  let remaining := List.length colors in
  (if Nat.eqb remaining 0 then ret tt
   else LOGGER_warning "too many colors for mode=%s, dropping %d"
                       (name mode) remaining) ;;
  let brightness := clamp 100 0 (max_brightness mode) in
  let data := [_REPORT_ID; 0x00; 0x00; 0x00; 0x00; 0x00; 0x00; 0x00;
               0x00; 0x00; 0x00; value mode; brightness; 0x00] in
  let data := data ++ [c0; c1; c2] in
  let data := data ++ [0x00; 0x00; 0x00; 0x00; 0x00] in
  data <- match speed_values mode with
          | Some ((_ :: _) as table) =>
              sp <- lift (getitem table speed) ;; ret (data ++ sp)
          | _ => ret (data ++ [0x00; 0x00; 0x00; 0x00; 0x00; 0x00])
          end ;;
  let data := data ++ [0x00; 0x00; cycle_count mode; Z.b2z (pulses mode);
                       flash_count mode] in
  selected_channels <-
    (if String.eqb channel "sync" then ret (values _COLOR_CHANNELS)
     else a <- lift (getitem _COLOR_CHANNELS channel) ;; ret [a]) ;;
  for_each selected_channels
    (fun '(addr1, addr2) data =>
       let data := set_slice_1_3 data addr1 addr2 in
       _send_feature_report data ;; ret data)
    data ;;
  _execute_report ;;
  device_release.

Definition reset_all_channels : M unit :=
  for_each (values _COLOR_CHANNELS)
    (fun '(addr1, _) (_ : unit) => _send_feature_report [_REPORT_ID; addr1; 0])
    tt ;;
  _execute_report.

Definition get_status : M (list (string * string * string)) := ret [].

(** *** [initialize] *)

Inductive pyval : Type :=
| PyStr (s : string)
| PyInt (z : Z).

(** [l.index(x, start)] *)
Fixpoint list_index (x : Z) (l : list Z) : option nat :=
  match l with
  | [] => None
  | y :: t => if Z.eqb y x then Some O else option_map S (list_index x t)
  end.

Definition index_from (x : Z) (start : nat) (l : list Z) : result nat :=
  match list_index x (skipn start l) with
  | Some i => Ok (start + i)%nat
  | None => Raise (ValueError "0 is not in list")
  end.

(** [l[i:j]] for [0 <= i], [0 <= j] *)
Definition slice (l : list Z) (i j : nat) : list Z :=
  firstn (j - i) (skipn i l).

(** [l[i]] for [0 <= i] *)
Definition item (l : list Z) (i : nat) : result Z :=
  match nth_error l i with
  | Some x => Ok x
  | None => Raise IndexError
  end.

(** [bytes(l)] *)
Definition bytes (l : list Z) : result (list Z) :=
  if forallb (fun x => (0 <=? x) && (x <? 256)) l then Ok l
  else Raise (ValueError "bytes must be in range(0, 256)").

(** [str(b, 'ascii', errors='ignore')] *)
Definition str_ascii_ignore (b : list Z) : string :=
  string_of_list_ascii
    (map (fun x => ascii_of_N (Z.to_N x)) (filter (fun x => x <? 128) b)).

(** [%d] *)
Definition fmt_d (z : Z) : string := NilZero.string_of_int (Z.to_int z).

(** ['%d.%d.%d.%d' % t] *)
Definition fmt_version (t : list Z) : result string :=
  match t with
  | [a; b; c; d] =>
      Ok (fmt_d a ++ "." ++ fmt_d b ++ "." ++ fmt_d c ++ "." ++ fmt_d d)%string
  | _ => Raise TypeError
  end.

(** [assert data[0] == _REPORT_ID and data[1] == 0x01] *)
Definition assert_handshake (data : list Z) : result unit :=
  match item data 0 with
  | Raise e => Raise e
  | Ok b0 =>
      if Z.eqb b0 _REPORT_ID then
        match item data 1 with
        | Raise e => Raise e
        | Ok b1 => if Z.eqb b1 0x01 then Ok tt else Raise AssertionError
        end
      else Raise AssertionError
  end.

Definition initialize : M (list (string * pyval * string)) :=
  _send_feature_report [_REPORT_ID; _INIT_CMD] ;;
  data <- _get_feature_report _REPORT_ID ;;
  device_release ;;
  lift (assert_handshake data) ;;
  null <- lift (index_from 0 12 data) ;;
  raw <- lift (bytes (slice data 12 null)) ;;
  let dev_name := str_ascii_ignore raw in
  let fw_version := slice data 4 8 in
  fw <- lift (fmt_version fw_version) ;;
  channels <- lift (item data 3) ;;
  ret [ ("Hardware name", PyStr dev_name, "");
        ("Firmware version", PyStr fw, "");
        ("LED channnels", PyInt channels, "") ].

(** A device that has not been used yet: no call recorded, no warning. *)
Definition fresh (reply : list Z) (budget : option nat) : world :=
  mk_world [] reply budget [].

(** *** [probe] *)

(** [RGBFusion2Driver.probe], a generator: what it yields, or the exception
    it raises.  [sys.platform], the dictionary [handle.hidinfo] and what
    [super().probe(handle, **kwargs)] yields are inputs; [and] evaluates its
    right operand, and so looks [usage] up, only when the left one holds. *)
Definition probe {D : Type} (platform : string) (hidinfo : dict Z)
  (super_probe : result (list D)) : result (list D) :=
  if negb (String.prefix "linux" platform) then
    match getitem hidinfo "usage" with
    | Raise e => Raise e
    | Ok usage =>
        if negb (Z.eqb usage _REPORT_ID) then Ok [] else super_probe
    end
  else super_probe.

(** * Notions used in the statements *)

(** ** Worlds *)

(** [grows w w' cs ws]: between [w] and [w'] the device received exactly the
    calls [cs], the logger exactly the warnings [ws], and the pending
    response is the same. *)
Definition grows (w w' : world) (cs : list hid_call) (ws : list log_record)
  : Prop :=
  w_calls w' = w_calls w ++ cs /\
  w_warnings w' = w_warnings w ++ ws /\
  w_reply w' = w_reply w.

(** ** Reports on the wire *)

(** What [_send_feature_report] hands to the device for [data]. *)
Definition padded (data : list Z) : list Z :=
  data ++ repeat 0x0 (Z.to_nat (_WRITE_LENGTH - Z.of_nat (List.length data))).

(** The 64 bytes of the execute command. *)
Definition execute_report : list Z := padded [_REPORT_ID; 0x28; 0xff].

(** The loop of [set_color]: the report is sent once per selected channel,
    in order, each time with that channel's address written over bytes 1
    and 2 of the same buffer. *)
Definition send_per_channel : Z * Z -> list Z -> M (list Z) :=
  fun '(addr1, addr2) data =>
    let data := set_slice_1_3 data addr1 addr2 in
    _send_feature_report data ;; ret data.

Definition settings_writes (data : list Z) (chans : list (Z * Z))
  : list hid_call :=
  map (fun a => SendFeatureReport (padded (set_slice_1_3 data (fst a) (snd a))))
      chans.

(** ** The stages of [set_color] *)

(** The color that is encoded, in the order it is encoded, and what is left
    in the [colors] iterator afterwards. *)
Definition single_color (m : _ColorMode) (colors : list (Z * Z * Z))
  : result ((Z * Z * Z) * list (Z * Z * Z)) :=
  if takes_color m then
    match colors with
    | (r, g, b) :: colors' => Ok ((b, g, r), colors')
    | [] => Raise (ValueError ("One color required for mode=" ++ name m)%string)
    end
  else Ok ((0, 0, 0), colors).

(** The warning emitted when colors are left over. *)
Definition too_many_colors (m : _ColorMode) (rest : list (Z * Z * Z))
  : list log_record :=
  if Nat.eqb (List.length rest) 0 then []
  else [mk_log_record "too many colors for mode=%s, dropping %d" (name m)
                      (List.length rest)].

(** The six speed bytes of a mode for an (already lowered) speed name. *)
Definition speed_bytes (m : _ColorMode) (speed : string) : result (list Z) :=
  match speed_values m with
  | Some ((_ :: _) as table) => getitem table speed
  | _ => Ok [0x00; 0x00; 0x00; 0x00; 0x00; 0x00]
  end.

(** The addresses selected by an (already lowered) channel name. *)
Definition selected_channels (channel : string) : result (list (Z * Z)) :=
  if String.eqb channel "sync" then Ok (values _COLOR_CHANNELS)
  else match getitem _COLOR_CHANNELS channel with
       | Ok a => Ok [a]
       | Raise e => Raise e
       end.

(** The buffer [data] as it stands when the loop over the channels starts. *)
Definition settings_data (m : _ColorMode) (c : Z * Z * Z) (sp : list Z)
  : list Z :=
  let '(c0, c1, c2) := c in
  [_REPORT_ID; 0x00; 0x00; 0x00; 0x00; 0x00; 0x00; 0x00;
   0x00; 0x00; 0x00; value m; clamp 100 0 (max_brightness m); 0x00;
   c0; c1; c2;
   0x00; 0x00; 0x00; 0x00; 0x00] ++
  sp ++
  [0x00; 0x00; cycle_count m; Z.b2z (pulses m); flash_count m].

(** Writes, commit, release: the tail of [set_color]. *)
Definition transmit (data : list Z) (chans : list (Z * Z)) : M unit :=
  for_each chans send_per_channel data ;;
  _execute_report ;;
  device_release.

(** The report written for one channel. *)
Definition settings_report (m : _ColorMode) (c : Z * Z * Z) (sp : list Z)
  (addr : Z * Z) : list Z :=
  padded (set_slice_1_3 (settings_data m c sp) (fst addr) (snd addr)).

(** The arguments of a call resolve to a descriptor, the encoded color, the
    colors left over, the speed bytes and the selected addresses. *)
Definition resolves (channel mode : string) (colors : list (Z * Z * Z))
  (speed : string) (m : _ColorMode) (c : Z * Z * Z)
  (rest : list (Z * Z * Z)) (sp : list Z) (chans : list (Z * Z)) : Prop :=
  getitem _COLOR_MODES (lower mode) = Ok m /\
  single_color m colors = Ok (c, rest) /\
  speed_bytes m (lower speed) = Ok sp /\
  selected_channels (lower channel) = Ok chans.

Definition set_color_calls (m : _ColorMode) (c : Z * Z * Z) (sp : list Z)
  (chans : list (Z * Z)) : list hid_call :=
  map (fun a => SendFeatureReport (settings_report m c sp a)) chans ++
  [SendFeatureReport execute_report; Release].

(** ** Layout of the settings report *)

(** Where each field of a settings report starts. *)
Record layout : Type := mk_layout {
  off_mode : nat;
  off_brightness : nat;
  off_color : nat;
  off_speed : nat;
  off_cycle : nat;
  off_pulse : nat;
  off_flash : nat
}.

(** The offsets as the specification lists them. *)
Definition spec_layout : layout := mk_layout 11 12 13 21 29 30 31.

(** The offsets that the construction of [data] in [set_color] produces. *)
Definition code_layout : layout := mk_layout 11 12 14 22 30 31 32.

Definition field_offsets (L : layout) : list nat :=
  [off_mode L; off_brightness L] ++ seq (off_color L) 3 ++
  seq (off_speed L) 6 ++ [off_cycle L; off_pulse L; off_flash L].

(** [report] is a 64-byte settings report for descriptor [m], encoded color
    [c] and speed bytes [sp], with its fields at the offsets of [L] and zero
    everywhere else after the report identifier and the address. *)
Definition laid_out (L : layout) (m : _ColorMode) (c : Z * Z * Z)
  (sp : list Z) (report : list Z) : Prop :=
  List.length report = 64%nat /\
  nth (off_mode L) report 0 = value m /\
  nth (off_brightness L) report 0 = clamp 100 0 (max_brightness m) /\
  (let '(c0, c1, c2) := c in
   firstn 3 (skipn (off_color L) report) = [c0; c1; c2]) /\
  firstn 6 (skipn (off_speed L) report) = sp /\
  nth (off_cycle L) report 0 = cycle_count m /\
  nth (off_pulse L) report 0 = Z.b2z (pulses m) /\
  nth (off_flash L) report 0 = flash_count m /\
  forall i, (3 <= i < 64)%nat -> ~ In i (field_offsets L) ->
            nth i report 0 = 0.

(** The fields of a settings report, read back at the offsets of the code. *)
Definition report_brightness (report : list Z) : Z := nth 12 report 0.
Definition report_color (report : list Z) : list Z :=
  firstn 3 (skipn 14 report).
Definition report_speed (report : list Z) : list Z :=
  firstn 6 (skipn 22 report).

(** ** Names and speed tiers *)

(** A mode name, respectively a channel name, that the tables do not know. *)
Definition unknown_mode (mode : string) : Prop :=
  dict_find _COLOR_MODES (lower mode) = None.

Definition unknown_channel (channel : string) : Prop :=
  lower channel <> "sync" /\ dict_find _COLOR_CHANNELS (lower channel) = None.

Definition speed_tiers : list string :=
  ["slowest"; "slower"; "normal"; "faster"; "fastest"; "ludicrous"].

Definition speed_modes : list _ColorMode :=
  [mode_pulse; mode_flash; mode_double_flash; mode_color_cycle].

(** Does tier [t] resolve to six bytes for mode [m]? *)
Definition tier_resolves (m : _ColorMode) (t : string) : bool :=
  match speed_bytes m t with
  | Ok sp => Nat.eqb (List.length sp) 6
  | Raise _ => false
  end.

Fixpoint distinct (l : list string) : bool :=
  match l with
  | [] => true
  | k :: t => negb (existsb (String.eqb k) t) && distinct t
  end.

(** ** The loop of [reset_all_channels] *)

Definition reset_channel : Z * Z -> unit -> M unit :=
  fun '(addr1, _) _ => _send_feature_report [_REPORT_ID; addr1; 0].

(** The calls [reset_all_channels] would make if byte 2 of each report were
    [second addr]: one report per channel, then the execute command. *)
Definition reset_calls (second : Z * Z -> Z) : list hid_call :=
  map (fun a => SendFeatureReport (padded [_REPORT_ID; fst a; second a]))
      (values _COLOR_CHANNELS) ++
  [SendFeatureReport execute_report].

(** ** The stages of [initialize] *)

(** The calls that [initialize] makes on the device. *)
Definition init_calls : list hid_call :=
  [SendFeatureReport (padded [_REPORT_ID; _INIT_CMD]);
   GetFeatureReport _REPORT_ID _READ_LENGTH;
   Release].

(** What [initialize] does with the response once the device is released:
    the assertion, then the parsing. *)
Definition decode (data : list Z) : result (list (string * pyval * string)) :=
  match assert_handshake data with
  | Raise e => Raise e
  | Ok _ =>
      match index_from 0 12 data with
      | Raise e => Raise e
      | Ok null =>
          match bytes (slice data 12 null) with
          | Raise e => Raise e
          | Ok raw =>
              match fmt_version (slice data 4 8) with
              | Raise e => Raise e
              | Ok fw =>
                  match item data 3 with
                  | Raise e => Raise e
                  | Ok channels =>
                      Ok [ ("Hardware name", PyStr (str_ascii_ignore raw), "");
                           ("Firmware version", PyStr fw, "");
                           ("LED channnels", PyInt channels, "") ]
                  end
              end
          end
      end
  end.

(** ** The public operations *)

Inductive operation : Type :=
| Initialize
| SetColor (channel mode : string) (colors : list (Z * Z * Z)) (speed : string)
| ResetAllChannels
| GetStatus.

(** [None] when the operation returns, [Some e] when it raises [e]. *)
Definition outcome {A : Type} (r : result A) : option exn :=
  match r with
  | Ok _ => None
  | Raise e => Some e
  end.

Definition run (op : operation) (w : world) : option exn * world :=
  match op with
  | Initialize => let (r, w') := initialize w in (outcome r, w')
  | SetColor channel mode colors speed =>
      let (r, w') := set_color channel mode colors speed w in (outcome r, w')
  | ResetAllChannels => let (r, w') := reset_all_channels w in (outcome r, w')
  | GetStatus => let (r, w') := get_status w in (outcome r, w')
  end.

(** The calls made on the device between two worlds include a release. *)
Definition released (w w' : world) : Prop :=
  exists cs, w_calls w' = w_calls w ++ cs /\ In Release cs.

(** ** Call scripts *)

(** The calls [cs] made one after the other, stopping at the first that the
    transport refuses. *)
Fixpoint run_calls (cs : list hid_call) : M unit :=
  match cs with
  | [] => ret tt
  | c :: t => call_device c ;; run_calls t
  end.

(** Does the budget cover [n] calls? *)
Definition enough (budget : option nat) (n : nat) : bool :=
  match budget with
  | None => true
  | Some b => Nat.leb n b
  end.

(** The calls of [cs] that the budget lets through. *)
Definition allowed (budget : option nat) (cs : list hid_call) : list hid_call :=
  match budget with
  | None => cs
  | Some b => firstn b cs
  end.

(** The world once the calls [cs] have reached the device and the warnings
    [ws] the logger. *)
Definition after (w : world) (cs : list hid_call) (ws : list log_record)
  : world :=
  mk_world (w_calls w ++ cs) (w_reply w)
           (option_map (fun b => (b - List.length cs)%nat) (w_budget w))
           (w_warnings w ++ ws).

(** The sequence of calls of [reset_all_channels]. *)
Definition reset_script : list hid_call :=
  map (fun a => SendFeatureReport (padded [_REPORT_ID; fst a; 0]))
      (values _COLOR_CHANNELS) ++
  [SendFeatureReport execute_report].

(** ** Text *)

(** The character codes of a string. *)
Definition char_codes (s : string) : list Z :=
  map (fun c => Z.of_N (N_of_ascii c)) (list_ascii_of_string s).

(** The value of the first entry of what [initialize] returns. *)
Definition hardware_name (res : list (string * pyval * string))
  : option string :=
  match res with
  | (_, PyStr s, _) :: _ => Some s
  | _ => None
  end.

(** The payload of a call, when it is a write. *)
Definition written (c : hid_call) : option (list Z) :=
  match c with
  | SendFeatureReport d => Some d
  | _ => None
  end.

(** [s] is the decimal numeral of [v]. *)
Definition reads_as (s : string) (v : Z) : Prop :=
  option_map Z.of_int (NilZero.int_of_string s) = Some v.

(** [res] is what a response [data] stands for: the name is the text of the
    bytes below 128 between offset 12 and the first zero byte from there
    on, the version the four numerals of bytes 4-7 joined by dots, the
    channel count byte 3; the response starts with 0xCC, 1. *)
Definition decoded_from (data : list Z) (res : list (string * pyval * string))
  : Prop :=
  exists null name version channels v0 v1 v2 v3 s0 s1 s2 s3,
    res = [ ("Hardware name", PyStr name, "");
            ("Firmware version", PyStr version, "");
            ("LED channnels", PyInt channels, "") ] /\
    nth_error data 0 = Some 0xcc /\
    nth_error data 1 = Some 0x01 /\
    (12 <= null)%nat /\
    nth_error data null = Some 0 /\
    (forall i, (12 <= i < null)%nat -> nth_error data i <> Some 0) /\
    char_codes name =
      filter (fun b => b <? 128) (firstn (null - 12) (skipn 12 data)) /\
    nth_error data 3 = Some channels /\
    nth_error data 4 = Some v0 /\ nth_error data 5 = Some v1 /\
    nth_error data 6 = Some v2 /\ nth_error data 7 = Some v3 /\
    version = (s0 ++ "." ++ s1 ++ "." ++ s2 ++ "." ++ s3)%string /\
    reads_as s0 v0 /\ reads_as s1 v1 /\ reads_as s2 v2 /\ reads_as s3 v3.

(** * Properties *)

(** ** Reasoning about the monad *)

Lemma bind_inv {A B : Type} (m : M A) (k : A -> M B) w r w' :
  bind m k w = (r, w') ->
  (exists a w1, m w = (Ok a, w1) /\ k a w1 = (r, w')) \/
  (exists e, m w = (Raise e, w') /\ r = Raise e).
Proof.
  unfold bind. destruct (m w) as [[a | e] w1]; intros H.
  - left. exists a, w1. split; [reflexivity | exact H].
  - right. exists e. inversion H; subst. split; reflexivity.
Qed.

Lemma bind_ok_inv {A B : Type} (m : M A) (k : A -> M B) w b w' :
  bind m k w = (Ok b, w') ->
  exists a w1, m w = (Ok a, w1) /\ k a w1 = (Ok b, w').
Proof.
  intros H. apply bind_inv in H as [H | (e & _ & H)]; [exact H | discriminate].
Qed.

Lemma bind_ok {A B : Type} (m : M A) (k : A -> M B) w a w1 :
  m w = (Ok a, w1) -> bind m k w = k a w1.
Proof. unfold bind. intros ->. reflexivity. Qed.

Lemma bind_raise {A B : Type} (m : M A) (k : A -> M B) w e w1 :
  m w = (Raise e, w1) -> bind m k w = (Raise e, w1).
Proof. unfold bind. intros ->. reflexivity. Qed.

Lemma lift_inv {A : Type} (r r' : result A) w w' :
  lift r w = (r', w') -> r' = r /\ w' = w.
Proof. unfold lift. intros H. inversion H. split; reflexivity. Qed.

Lemma grows_refl w : grows w w [] [].
Proof. unfold grows. rewrite !app_nil_r. repeat split. Qed.

Lemma grows_trans w1 w2 w3 cs1 ws1 cs2 ws2 :
  grows w1 w2 cs1 ws1 -> grows w2 w3 cs2 ws2 ->
  grows w1 w3 (cs1 ++ cs2) (ws1 ++ ws2).
Proof.
  unfold grows. intros (Hc1 & Hw1 & Hr1) (Hc2 & Hw2 & Hr2).
  rewrite Hc2, Hw2, Hr2, Hc1, Hw1, Hr1, !app_assoc. repeat split.
Qed.

(** A transport call that returns has been recorded; one that raises has
    left the world as it was. *)
Lemma call_device_inv c w r w' :
  call_device c w = (r, w') ->
  (r = Ok tt /\ grows w w' [c] []) \/ (r = Raise TransportError /\ w' = w).
Proof.
  unfold call_device, grows.
  destruct (w_budget w) as [[| n] |]; intros H; inversion H; subst; cbn;
    rewrite ?app_nil_r; auto.
Qed.

Lemma call_device_ok_inv c w u w' :
  call_device c w = (Ok u, w') -> grows w w' [c] [].
Proof.
  intros H. apply call_device_inv in H as [[_ H] | [H _]];
    [exact H | discriminate].
Qed.

(** With an unbounded budget the transport never raises. *)
Lemma call_device_unbounded c w :
  w_budget w = None ->
  call_device c w =
    (Ok tt, mk_world (w_calls w ++ [c]) (w_reply w) None (w_warnings w)).
Proof. unfold call_device. intros ->. reflexivity. Qed.

(** ** Feature reports *)

Lemma padded_length data :
  (List.length data <= 64)%nat -> List.length (padded data) = 64%nat.
Proof.
  intros H. unfold padded, _WRITE_LENGTH.
  rewrite length_app, repeat_length. lia.
Qed.

Lemma send_feature_report_inv data w r w' :
  _send_feature_report data w = (r, w') ->
  (r = Ok tt /\ grows w w' [SendFeatureReport (padded data)] []) \/
  (r = Raise TransportError /\ w' = w).
Proof. apply call_device_inv. Qed.

Lemma set_slice_1_3_again x data a1 a2 b1 b2 :
  set_slice_1_3 (set_slice_1_3 (x :: data) a1 a2) b1 b2 =
  set_slice_1_3 (x :: data) b1 b2.
Proof. reflexivity. Qed.

Lemma send_loop_ok_inv chans : forall x data w data' w',
  for_each chans send_per_channel (x :: data) w = (Ok data', w') ->
  grows w w' (settings_writes (x :: data) chans) [].
Proof.
  induction chans as [| [a1 a2] chans IH]; intros x data w data' w' H.
  - cbn in H. inversion H; subst. apply grows_refl.
  - cbn [for_each] in H.
    apply bind_ok_inv in H as (d1 & w1 & Hbody & Hrest).
    unfold send_per_channel in Hbody.
    apply bind_ok_inv in Hbody as (u & w2 & Hsend & Hret).
    inversion Hret; subst d1 w2.
    apply send_feature_report_inv in Hsend as [[_ Hg] | [Hr _]];
      [| discriminate].
    apply IH in Hrest.
    exact (grows_trans _ _ _ _ _ _ _ Hg Hrest).
Qed.

(** Whatever the outcome of the loop, the device has only received a prefix
    of the writes, and nothing else. *)
Lemma send_loop_inv chans : forall x data w r w',
  for_each chans send_per_channel (x :: data) w = (r, w') ->
  exists n, grows w w' (firstn n (settings_writes (x :: data) chans)) [].
Proof.
  induction chans as [| [a1 a2] chans IH]; intros x data w r w' H.
  - cbn in H. inversion H; subst. exists 0%nat. apply grows_refl.
  - cbn [for_each] in H.
    apply bind_inv in H as [(d1 & w1 & Hbody & Hrest) | (e & Hbody & _)];
      unfold send_per_channel in Hbody.
    + apply bind_ok_inv in Hbody as (u & w2 & Hsend & Hret).
      inversion Hret; subst d1 w2.
      apply send_feature_report_inv in Hsend as [[_ Hg] | [Hr _]];
        [| discriminate].
      apply IH in Hrest as [n Hn]. exists (S n).
      exact (grows_trans _ _ _ _ _ _ _ Hg Hn).
    + apply bind_inv in Hbody as [(u & w2 & _ & Hret) | (e' & Hsend & _)];
        [discriminate |].
      apply send_feature_report_inv in Hsend as [[Hr _] | [_ ->]];
        [discriminate |].
      exists 0%nat. apply grows_refl.
Qed.

Lemma send_feature_report_unbounded data w :
  w_budget w = None ->
  exists w', _send_feature_report data w = (Ok tt, w') /\ w_budget w' = None.
Proof.
  intros Hb. eexists. split.
  - unfold _send_feature_report, device_send_feature_report.
    apply call_device_unbounded. exact Hb.
  - reflexivity.
Qed.

Lemma send_loop_unbounded chans : forall data w,
  w_budget w = None ->
  exists data' w',
    for_each chans send_per_channel data w = (Ok data', w') /\
    w_budget w' = None.
Proof.
  induction chans as [| [a1 a2] chans IH]; intros data w Hb.
  - exists data, w. split; [reflexivity | exact Hb].
  - destruct (send_feature_report_unbounded (set_slice_1_3 data a1 a2) w Hb)
      as (w1 & Hsend & Hb1).
    destruct (IH (set_slice_1_3 data a1 a2) w1 Hb1) as (d' & w' & Hrun & Hb').
    exists d', w'. split; [| exact Hb'].
    cbn [for_each]. erewrite bind_ok; [exact Hrun |].
    unfold send_per_channel. erewrite bind_ok by exact Hsend. reflexivity.
Qed.

(** ** The stages of [set_color] *)

(** [set_color] resolves its arguments in a fixed order, without touching
    the device, and only then transmits. *)
Lemma set_color_stages channel mode colors speed w :
  set_color channel mode colors speed w =
  match getitem _COLOR_MODES (lower mode) with
  | Raise e => (Raise e, w)
  | Ok m =>
      match single_color m colors with
      | Raise e => (Raise e, w)
      | Ok (c, rest) =>
          let w1 :=
            if Nat.eqb (List.length rest) 0 then w
            else mk_world (w_calls w) (w_reply w) (w_budget w)
                          (w_warnings w ++ too_many_colors m rest) in
          match speed_bytes m (lower speed) with
          | Raise e => (Raise e, w1)
          | Ok sp =>
              match selected_channels (lower channel) with
              | Raise e => (Raise e, w1)
              | Ok chans => transmit (settings_data m c sp) chans w1
              end
          end
      end
  end.
Proof.
  cbv [set_color transmit bind ret lift raise LOGGER_warning single_color
       speed_bytes selected_channels too_many_colors].
  destruct (getitem _COLOR_MODES (lower mode)) as [m | e]; [| reflexivity].
  destruct (takes_color m); [destruct colors as [| [[r g] b] rest] |];
    try reflexivity;
    (destruct (Nat.eqb _ 0);
     (destruct (speed_values m) as [[| [k v] table] |];
      [| destruct (getitem ((k, v) :: table) (lower speed)); [| reflexivity] |];
      (destruct (String.eqb (lower channel) "sync");
       [reflexivity
       | destruct (getitem _COLOR_CHANNELS (lower channel)); reflexivity]))).
Qed.

Lemma In_firstn {A : Type} (x : A) n l : In x (firstn n l) -> In x l.
Proof.
  intros H. rewrite <- (firstn_skipn n l). apply in_or_app. left. exact H.
Qed.

Lemma transmit_ok_inv x data chans w u w' :
  transmit (x :: data) chans w = (Ok u, w') ->
  grows w w'
    (settings_writes (x :: data) chans ++
     [SendFeatureReport execute_report; Release]) [].
Proof.
  unfold transmit. intros H.
  apply bind_ok_inv in H as (d' & w1 & Hloop & H).
  apply bind_ok_inv in H as (u1 & w2 & Hexec & Hrel).
  apply send_loop_ok_inv in Hloop.
  apply send_feature_report_inv in Hexec as [[_ Hexec] | [Hr _]];
    [| discriminate].
  apply call_device_ok_inv in Hrel.
  pose proof (grows_trans _ _ _ _ _ _ _ Hloop
                (grows_trans _ _ _ _ _ _ _ Hexec Hrel)) as Hg.
  exact Hg.
Qed.

(** Until [transmit] returns, the device has seen nothing but settings
    writes and, possibly, the commit. *)
Lemma transmit_raise_inv x data chans w e w' :
  transmit (x :: data) chans w = (Raise e, w') ->
  e = TransportError /\
  exists cs, w_calls w' = w_calls w ++ cs /\ ~ In Release cs.
Proof.
  unfold transmit. intros H.
  apply bind_inv in H as [(d' & w1 & Hloop & H) | (e' & Hloop & He)].
  - apply send_loop_ok_inv in Hloop as (Hc1 & _ & _).
    assert (Hnr : ~ In Release (settings_writes (x :: data) chans)).
    { unfold settings_writes. rewrite in_map_iff.
      intros (a & Ha & _). discriminate. }
    apply bind_inv in H as [(u1 & w2 & Hexec & Hrel) | (e' & Hexec & He)].
    + apply send_feature_report_inv in Hexec as [[_ (Hc2 & _ & _)] | [Hr _]];
        [| discriminate].
      apply call_device_inv in Hrel as [[Hr _] | [Hr ->]]; [discriminate |].
      inversion Hr; subst e. split; [reflexivity |].
      eexists. rewrite Hc2, Hc1, <- app_assoc. split; [reflexivity |].
      rewrite in_app_iff. intros [Hin | [Hin | []]];
        [exact (Hnr Hin) | discriminate].
    + apply send_feature_report_inv in Hexec as [[Hr _] | [Hr ->]];
        inversion He; subst e; [discriminate |].
      inversion Hr; subst e'. split; [reflexivity |].
      exists (settings_writes (x :: data) chans). split; assumption.
  - inversion He; subst e'.
    assert (Hprefix := send_loop_inv _ _ _ _ _ _ Hloop).
    destruct Hprefix as (n & Hc & _ & _).
    assert (He' : e = TransportError).
    { clear Hc. revert x data w Hloop.
      induction chans as [| [a1 a2] chans IH]; intros x data w Hloop.
      - discriminate.
      - cbn [for_each] in Hloop.
        apply bind_inv in Hloop
          as [(d1 & w1 & Hbody & Hrest) | (e1 & Hbody & He1)].
        + unfold send_per_channel in Hbody.
          apply bind_ok_inv in Hbody as (u & w2 & _ & Hret).
          inversion Hret; subst d1 w2.
          exact (IH _ _ _ Hrest).
        + inversion He1; subst e1. unfold send_per_channel in Hbody.
          apply bind_inv in Hbody as [(u & w2 & _ & Hret) | (e2 & Hs & He2)];
            [discriminate |].
          inversion He2; subst e2.
          apply send_feature_report_inv in Hs as [[Hr _] | [Hr _]];
            [discriminate | inversion Hr; reflexivity]. }
    split; [exact He' |].
    eexists. split; [exact Hc |].
    intros Hin. apply In_firstn in Hin.
    unfold settings_writes in Hin. rewrite in_map_iff in Hin.
    destruct Hin as (a & Ha & _). discriminate.
Qed.

Lemma transmit_unbounded data chans w :
  w_budget w = None -> exists w', transmit data chans w = (Ok tt, w').
Proof.
  intros Hb. unfold transmit.
  destruct (send_loop_unbounded chans data w Hb) as (d' & w1 & Hloop & Hb1).
  destruct (send_feature_report_unbounded [_REPORT_ID; 0x28; 0xff] w1 Hb1)
    as (w2 & Hexec & Hb2).
  eexists.
  erewrite bind_ok by exact Hloop.
  erewrite bind_ok by exact Hexec.
  apply call_device_unbounded. exact Hb2.
Qed.

(** ** The lookup tables *)

Lemma dict_find_In {V : Type} (d : dict V) k v :
  dict_find d k = Some v -> In (k, v) d.
Proof.
  induction d as [| [k' v'] d IH]; cbn; [discriminate |].
  destruct (String.eqb k' k) eqn:E.
  - apply String.eqb_eq in E. intros H. inversion H; subst. left. reflexivity.
  - intros H. right. exact (IH H).
Qed.

Lemma getitem_In {V : Type} (d : dict V) k v :
  getitem d k = Ok v -> In (k, v) d.
Proof.
  unfold getitem. destruct (dict_find d k) eqn:E; [| discriminate].
  intros H. inversion H; subst. exact (dict_find_In _ _ _ E).
Qed.

Lemma distinct_NoDup l : distinct l = true -> NoDup l.
Proof.
  induction l as [| k t IH]; intros H; [constructor |].
  cbn in H. apply andb_true_iff in H as [Hk Ht].
  constructor; [| exact (IH Ht)].
  intros Hin. apply negb_true_iff in Hk.
  assert (E : existsb (String.eqb k) t = true).
  { apply existsb_exists. exists k. split; [exact Hin |].
    apply String.eqb_refl. }
  congruence.
Qed.

(** No key is defined twice, so a lookup in definition order finds what the
    Python dictionary holds. *)
Lemma tables_keys_distinct :
  NoDup (map fst _COLOR_CHANNELS) /\ NoDup (map fst _COLOR_MODES) /\
  Forall (fun table : dict (list Z) => NoDup (map fst table))
         [_PULSE_SPEEDS; _FLASH_SPEEDS; _DOUBLE_FLASH_SPEEDS;
          _COLOR_CYCLE_SPEEDS].
Proof.
  split; [apply distinct_NoDup; reflexivity |].
  split; [apply distinct_NoDup; reflexivity |].
  repeat (apply Forall_cons; [apply distinct_NoDup; reflexivity |]).
  apply Forall_nil.
Qed.

Lemma clamp_bounds v lo hi : lo <= hi -> lo <= clamp v lo hi <= hi.
Proof. unfold clamp. lia. Qed.

(** The registry holds exactly the six descriptors, each under its name. *)
Lemma color_modes_inv k m :
  getitem _COLOR_MODES k = Ok m ->
  k = name m /\
  (m = mode_off \/ m = mode_static \/ m = mode_pulse \/ m = mode_flash \/
   m = mode_double_flash \/ m = mode_color_cycle).
Proof.
  intros H. apply getitem_In in H. cbn in H.
  repeat (destruct H as [H | H]; [inversion H; subst; cbn; tauto |]).
  destruct H.
Qed.

(** Every entry of every speed table has six bytes. *)
Lemma speed_bytes_length k m speed sp :
  getitem _COLOR_MODES k = Ok m ->
  speed_bytes m speed = Ok sp ->
  exists s0 s1 s2 s3 s4 s5, sp = [s0; s1; s2; s3; s4; s5].
Proof.
  intros Hm Hsp. apply color_modes_inv in Hm as [_ Hm].
  assert (Htable : forall table : dict (list Z),
             Forall (fun kv => List.length (snd kv) = 6%nat) table ->
             getitem table speed = Ok sp -> List.length sp = 6%nat).
  { intros table Hall Hget. apply getitem_In in Hget.
    rewrite Forall_forall in Hall. exact (Hall _ Hget). }
  assert (Hlen : List.length sp = 6%nat).
  { destruct Hm as [-> | [-> | [-> | [-> | [-> | ->]]]]];
      cbn [speed_bytes speed_values mode_off mode_static mode_pulse mode_flash
           mode_double_flash mode_color_cycle _PULSE_SPEEDS _FLASH_SPEEDS
           _DOUBLE_FLASH_SPEEDS _COLOR_CYCLE_SPEEDS] in Hsp;
      try (inversion Hsp; reflexivity);
      (eapply Htable; [| exact Hsp]; repeat constructor). }
  destruct sp as [| s0 [| s1 [| s2 [| s3 [| s4 [| s5 [| s6 sp]]]]]]];
    try discriminate.
  repeat eexists.
Qed.

(** The wire image of a settings report, byte by byte. *)
Lemma settings_report_bytes m c0 c1 c2 s0 s1 s2 s3 s4 s5 addr1 addr2 :
  settings_report m (c0, c1, c2) [s0; s1; s2; s3; s4; s5] (addr1, addr2) =
  [0xcc; addr1; addr2; 0; 0; 0; 0; 0; 0; 0; 0;
   value m; clamp 100 0 (max_brightness m); 0;
   c0; c1; c2;
   0; 0; 0; 0; 0;
   s0; s1; s2; s3; s4; s5;
   0; 0; cycle_count m; Z.b2z (pulses m); flash_count m;
   0; 0; 0; 0; 0; 0; 0; 0; 0; 0; 0; 0; 0; 0; 0; 0;
   0; 0; 0; 0; 0; 0; 0; 0; 0; 0; 0; 0; 0; 0; 0].
Proof. reflexivity. Qed.

Lemma execute_report_bytes :
  execute_report = [0xcc; 0x28; 0xff] ++ repeat 0 61.
Proof. reflexivity. Qed.

Lemma selected_channels_sync :
  selected_channels "sync" =
  Ok [(0x20, 0x01); (0x21, 0x02); (0x22, 0x04); (0x23, 0x08);
      (0x24, 0x10); (0x25, 0x20); (0x26, 0x40)].
Proof. reflexivity. Qed.

(** ** [set_color], end to end *)

Lemma too_many_colors_grows m rest w :
  grows w
    (if Nat.eqb (List.length rest) 0 then w
     else mk_world (w_calls w) (w_reply w) (w_budget w)
                   (w_warnings w ++ too_many_colors m rest))
    [] (too_many_colors m rest).
Proof.
  unfold grows, too_many_colors.
  destruct (Nat.eqb (List.length rest) 0); cbn; rewrite ?app_nil_r;
    repeat split.
Qed.

(** A call that returns has resolved its arguments and made exactly the
    settings writes, the commit and the release. *)
Lemma set_color_ok_inv channel mode colors speed w u w' :
  set_color channel mode colors speed w = (Ok u, w') ->
  exists m c rest sp chans,
    resolves channel mode colors speed m c rest sp chans /\
    grows w w' (set_color_calls m c sp chans) (too_many_colors m rest).
Proof.
  rewrite set_color_stages. unfold resolves.
  destruct (getitem _COLOR_MODES (lower mode)) as [m | e] eqn:Hm;
    [| discriminate].
  destruct (single_color m colors) as [[[[c0 c1] c2] rest] | e] eqn:Hc;
    [| discriminate].
  cbv zeta.
  destruct (speed_bytes m (lower speed)) as [sp | e] eqn:Hsp; [| discriminate].
  destruct (selected_channels (lower channel)) as [chans | e] eqn:Hch;
    [| discriminate].
  intros H. exists m, (c0, c1, c2), rest, sp, chans.
  split; [auto |].
  apply transmit_ok_inv in H.
  pose proof (grows_trans _ _ _ _ _ _ _ (too_many_colors_grows m rest w) H)
    as Hg.
  rewrite app_nil_r in Hg. exact Hg.
Qed.

(** With a transport that does not fail, a call whose arguments resolve
    returns. *)
Lemma set_color_returns channel mode colors speed w m c rest sp chans :
  resolves channel mode colors speed m c rest sp chans ->
  w_budget w = None ->
  exists w', set_color channel mode colors speed w = (Ok tt, w').
Proof.
  intros (Hm & Hc & Hsp & Hch) Hb.
  rewrite set_color_stages, Hm, Hc, Hsp, Hch. cbv zeta.
  apply transmit_unbounded.
  destruct (Nat.eqb (List.length rest) 0); [exact Hb | cbn; exact Hb].
Qed.

(** The arguments resolve in one way only. *)
Lemma resolves_fun channel mode colors speed m c rest sp chans
  m' c' rest' sp' chans' :
  resolves channel mode colors speed m c rest sp chans ->
  resolves channel mode colors speed m' c' rest' sp' chans' ->
  m' = m /\ c' = c /\ rest' = rest /\ sp' = sp /\ chans' = chans.
Proof.
  intros (Hm & Hc & Hsp & Hch) (Hm' & Hc' & Hsp' & Hch').
  rewrite Hm in Hm'. inversion Hm'; subst m'.
  rewrite Hc in Hc'. inversion Hc'; subst c' rest'.
  rewrite Hsp in Hsp'. inversion Hsp'; subst sp'.
  rewrite Hch in Hch'. inversion Hch'; subst chans'.
  repeat split.
Qed.

(** The calls and warnings of a returning call, for given resolved
    arguments. *)
Lemma set_color_ok_resolved channel mode colors speed w u w' m c rest sp chans :
  resolves channel mode colors speed m c rest sp chans ->
  set_color channel mode colors speed w = (Ok u, w') ->
  grows w w' (set_color_calls m c sp chans) (too_many_colors m rest).
Proof.
  intros Hres H.
  apply set_color_ok_inv in H as (m' & c' & rest' & sp' & chans' & Hres' & Hg).
  destruct (resolves_fun _ _ _ _ _ _ _ _ _ _ _ _ _ _ Hres Hres')
    as (-> & -> & -> & -> & ->).
  exact Hg.
Qed.

(** At least one channel is selected. *)
Lemma selected_channels_nonempty channel chans :
  selected_channels channel = Ok chans -> chans <> [].
Proof.
  unfold selected_channels.
  destruct (String.eqb channel "sync").
  - intros H. inversion H. discriminate.
  - destruct (getitem _COLOR_CHANNELS channel); intros H; inversion H.
    discriminate.
Qed.

(** A call that returns, in full: the descriptor, the encoded color, the six
    speed bytes, the addresses, the calls made and the warnings emitted. *)
Lemma set_color_ok_calls channel mode colors speed w u w' :
  set_color channel mode colors speed w = (Ok u, w') ->
  exists m c0 c1 c2 rest s0 s1 s2 s3 s4 s5 chans,
    resolves channel mode colors speed m (c0, c1, c2) rest
             [s0; s1; s2; s3; s4; s5] chans /\
    w_calls w' =
      w_calls w ++
      set_color_calls m (c0, c1, c2) [s0; s1; s2; s3; s4; s5] chans /\
    w_warnings w' = w_warnings w ++ too_many_colors m rest.
Proof.
  intros H.
  apply set_color_ok_inv in H
    as (m & [[c0 c1] c2] & rest & sp & chans & Hres & Hc & Hw & _).
  destruct Hres as (Hm & Hcol & Hsp & Hch).
  destruct (speed_bytes_length _ _ _ _ Hm Hsp)
    as (s0 & s1 & s2 & s3 & s4 & s5 & ->).
  exists m, c0, c1, c2, rest, s0, s1, s2, s3, s4, s5, chans.
  unfold resolves. auto.
Qed.

(** ** Layout of the settings report *)

Lemma settings_report_laid_out m c0 c1 c2 s0 s1 s2 s3 s4 s5 addr :
  laid_out code_layout m (c0, c1, c2) [s0; s1; s2; s3; s4; s5]
           (settings_report m (c0, c1, c2) [s0; s1; s2; s3; s4; s5] addr).
Proof.
  destruct addr as [a1 a2]. rewrite settings_report_bytes.
  unfold laid_out. repeat (split; [reflexivity |]).
  intros i [Hlo Hhi] Hnot.
  do 64 (destruct i as [| i];
         [first [reflexivity | lia
                | exfalso; apply Hnot; cbn; intuition reflexivity] |]).
  lia.
Qed.

Lemma settings_report_address m c sp addr :
  nth 0 (settings_report m c sp addr) 0 = _REPORT_ID /\
  nth 1 (settings_report m c sp addr) 0 = fst addr /\
  nth 2 (settings_report m c sp addr) 0 = snd addr.
Proof. destruct c as [[c0 c1] c2], addr as [a1 a2]. repeat split. Qed.

Lemma settings_report_fields m c0 c1 c2 s0 s1 s2 s3 s4 s5 addr :
  let r := settings_report m (c0, c1, c2) [s0; s1; s2; s3; s4; s5] addr in
  report_brightness r = clamp 100 0 (max_brightness m) /\
  report_color r = [c0; c1; c2] /\
  report_speed r = [s0; s1; s2; s3; s4; s5].
Proof. destruct addr as [a1 a2]. repeat split. Qed.

(** ** Claims about the settings report *)

(** C3, as the specification states it, fails: for
    [set_color("led1", "static", [(1, 2, 3)])] the report that reaches the
    device has its color bytes at offsets 14-16, so it is not laid out at
    the offsets 13-15, 21-26, 29, 30, 31 that the specification lists. *)
Lemma spec_layout_refuted :
  let report :=
    settings_report mode_static (3, 2, 1) [0; 0; 0; 0; 0; 0] (0x20, 0x01) in
  set_color "led1" "static" [(1, 2, 3)] "normal" (fresh [] None) =
    (Ok tt,
     mk_world [SendFeatureReport report; SendFeatureReport execute_report;
               Release] [] None []) /\
  resolves "led1" "static" [(1, 2, 3)] "normal" mode_static (3, 2, 1) []
           [0; 0; 0; 0; 0; 0] [(0x20, 0x01)] /\
  firstn 3 (skipn 13 report) = [0; 3; 2] /\
  ~ laid_out spec_layout mode_static (3, 2, 1) [0; 0; 0; 0; 0; 0] report.
Proof.
  intros report. split; [vm_compute; reflexivity |].
  split; [repeat split |]. split; [reflexivity |].
  unfold laid_out. intros (_ & _ & _ & Hcolor & _). discriminate Hcolor.
Qed.

(** C3 (amended): every settings report written by a [set_color] call that
    returns is 64 bytes long, starts with the report identifier and the
    address pair of its channel, and carries the mode code at offset 11, the
    brightness at offset 12, the color bytes at offsets 14-16, the six speed
    bytes at offsets 22-27, the cycle count at offset 30, the pulse flag at
    offset 31 and the flash count at offset 32; every other byte from
    offset 3 on is zero. *)
Theorem settings_report_layout channel mode colors speed w u w' :
  set_color channel mode colors speed w = (Ok u, w') ->
  exists m c rest sp chans,
    resolves channel mode colors speed m c rest sp chans /\
    w_calls w' =
      w_calls w ++
      map (fun a => SendFeatureReport (settings_report m c sp a)) chans ++
      [SendFeatureReport execute_report; Release] /\
    forall a, In a chans ->
      laid_out code_layout m c sp (settings_report m c sp a) /\
      nth 0 (settings_report m c sp a) 0 = _REPORT_ID /\
      nth 1 (settings_report m c sp a) 0 = fst a /\
      nth 2 (settings_report m c sp a) 0 = snd a.
Proof.
  intros H.
  apply set_color_ok_calls in H
    as (m & c0 & c1 & c2 & rest & s0 & s1 & s2 & s3 & s4 & s5 & chans &
        Hres & Hc & _).
  exists m, (c0, c1, c2), rest, [s0; s1; s2; s3; s4; s5], chans.
  split; [exact Hres |]. split; [exact Hc |].
  intros a _. split; [apply settings_report_laid_out |].
  apply settings_report_address.
Qed.

Lemma settings_report_layout_witness :
  let w := fresh [] None in
  let w' := snd (set_color "led3" "pulse" [(1, 2, 3)] "Fastest" w) in
  set_color "led3" "pulse" [(1, 2, 3)] "Fastest" w = (Ok tt, w') /\
  exists m c rest sp chans,
    resolves "led3" "pulse" [(1, 2, 3)] "Fastest" m c rest sp chans /\
    w_calls w' =
      w_calls w ++
      map (fun a => SendFeatureReport (settings_report m c sp a)) chans ++
      [SendFeatureReport execute_report; Release] /\
    forall a, In a chans ->
      laid_out code_layout m c sp (settings_report m c sp a) /\
      nth 0 (settings_report m c sp a) 0 = _REPORT_ID /\
      nth 1 (settings_report m c sp a) 0 = fst a /\
      nth 2 (settings_report m c sp a) 0 = snd a.
Proof.
  intros w w'. split; [reflexivity |].
  apply (settings_report_layout "led3" "pulse" [(1, 2, 3)] "Fastest" w tt w').
  reflexivity.
Defined.

(** C5: a [set_color] call on channel "sync" whose mode, colors and speed
    resolve makes, when it returns, exactly seven settings writes, one per
    entry of the channel table in definition order (led1 to led7), each
    with that channel's address pair at bytes 1-2, then exactly one write of
    the execute command [0xCC, 0x28, 0xFF] padded with zeros to 64 bytes
    (and then the release); with a transport that does not fail, it does
    return. *)
Theorem sync_writes_every_channel channel mode colors speed w m c rest sp :
  lower channel = "sync" ->
  getitem _COLOR_MODES (lower mode) = Ok m ->
  single_color m colors = Ok (c, rest) ->
  speed_bytes m (lower speed) = Ok sp ->
  map fst _COLOR_CHANNELS =
    ["led1"; "led2"; "led3"; "led4"; "led5"; "led6"; "led7"] /\
  (forall k a, In (k, a) _COLOR_CHANNELS ->
     List.length (settings_report m c sp a) = 64%nat /\
     nth 1 (settings_report m c sp a) 0 = fst a /\
     nth 2 (settings_report m c sp a) 0 = snd a) /\
  (forall u w',
     set_color channel mode colors speed w = (Ok u, w') ->
     w_calls w' =
       w_calls w ++
       map (fun ka => SendFeatureReport (settings_report m c sp (snd ka)))
           _COLOR_CHANNELS ++
       [SendFeatureReport ([0xcc; 0x28; 0xff] ++ repeat 0 61); Release]) /\
  (w_budget w = None ->
   exists w', set_color channel mode colors speed w = (Ok tt, w')).
Proof.
  intros Hsync Hm Hc Hsp.
  assert (Hres : resolves channel mode colors speed m c rest sp
                          (values _COLOR_CHANNELS)).
  { unfold resolves. rewrite Hsync. auto. }
  split; [reflexivity |]. split; [| split].
  - intros k a _.
    destruct (speed_bytes_length _ _ _ _ Hm Hsp)
      as (s0 & s1 & s2 & s3 & s4 & s5 & ->).
    destruct c as [[c0 c1] c2], a as [a1 a2]. repeat split.
  - intros u w' H.
    apply (set_color_ok_resolved _ _ _ _ _ _ _ _ _ _ _ _ Hres) in H
      as (Hcalls & _).
    rewrite Hcalls. unfold set_color_calls, values. rewrite map_map.
    reflexivity.
  - intros Hb. exact (set_color_returns _ _ _ _ _ _ _ _ _ _ Hres Hb).
Qed.

Lemma sync_writes_every_channel_witness :
  let w := fresh [] None in
  let w' := snd (set_color "Sync" "color-cycle" [] "ludicrous" w) in
  lower "Sync" = "sync" /\
  getitem _COLOR_MODES (lower "color-cycle") = Ok mode_color_cycle /\
  single_color mode_color_cycle [] = Ok ((0, 0, 0), []) /\
  speed_bytes mode_color_cycle (lower "ludicrous") =
    Ok [0xcc; 0x01; 0x68; 0x01; 0x00; 0x00] /\
  set_color "Sync" "color-cycle" [] "ludicrous" w = (Ok tt, w') /\
  w_calls w' =
    w_calls w ++
    map (fun ka =>
           SendFeatureReport
             (settings_report mode_color_cycle (0, 0, 0)
                [0xcc; 0x01; 0x68; 0x01; 0x00; 0x00] (snd ka)))
        _COLOR_CHANNELS ++
    [SendFeatureReport ([0xcc; 0x28; 0xff] ++ repeat 0 61); Release].
Proof.
  intros w w'.
  assert (Hrun : set_color "Sync" "color-cycle" [] "ludicrous" w = (Ok tt, w'))
    by reflexivity.
  repeat (split; [reflexivity |]).
  destruct (sync_writes_every_channel "Sync" "color-cycle" [] "ludicrous" w
              mode_color_cycle (0, 0, 0) []
              [0xcc; 0x01; 0x68; 0x01; 0x00; 0x00]
              eq_refl eq_refl eq_refl eq_refl)
    as (_ & _ & Hcalls & _).
  exact (Hcalls tt w' Hrun).
Defined.

(** C6: in every settings report written by a [set_color] call that
    returns, the color bytes are (0, 0, 0) when the descriptor does not take
    a color, whatever colors were supplied; the six speed bytes are zero
    when the descriptor has no speed table; and the brightness byte is 100
    clamped into [0, max_brightness], hence 90 for static and pulse. *)
Theorem payload_respects_descriptor channel mode colors speed w u w' :
  set_color channel mode colors speed w = (Ok u, w') ->
  exists m reports,
    getitem _COLOR_MODES (lower mode) = Ok m /\
    w_calls w' =
      w_calls w ++ map SendFeatureReport reports ++
      [SendFeatureReport execute_report; Release] /\
    reports <> [] /\
    forall r, In r reports ->
      (takes_color m = false -> report_color r = [0; 0; 0]) /\
      (speed_values m = None -> report_speed r = [0; 0; 0; 0; 0; 0]) /\
      report_brightness r = clamp 100 0 (max_brightness m) /\
      0 <= report_brightness r <= max_brightness m /\
      (lower mode = "static" \/ lower mode = "pulse" ->
       report_brightness r = 90).
Proof.
  intros H.
  apply set_color_ok_calls in H
    as (m & c0 & c1 & c2 & rest & s0 & s1 & s2 & s3 & s4 & s5 & chans &
        (Hm & Hc & Hsp & Hch) & Hcalls & _).
  exists m,
    (map (settings_report m (c0, c1, c2) [s0; s1; s2; s3; s4; s5]) chans).
  split; [exact Hm |]. split; [| split].
  - rewrite Hcalls. unfold set_color_calls. rewrite map_map. reflexivity.
  - apply selected_channels_nonempty in Hch.
    destruct chans; [contradiction | discriminate].
  - intros r Hr. apply in_map_iff in Hr as (a & <- & _).
    destruct (settings_report_fields m c0 c1 c2 s0 s1 s2 s3 s4 s5 a)
      as (Hb & Hcol & Hspeed).
    rewrite Hb, Hcol, Hspeed.
    split; [| split; [| split; [reflexivity |]]].
    + intros Htc. unfold single_color in Hc. rewrite Htc in Hc.
      inversion Hc. reflexivity.
    + intros Hnone. unfold speed_bytes in Hsp. rewrite Hnone in Hsp.
      inversion Hsp. reflexivity.
    + apply color_modes_inv in Hm as [Hname Hcases]. rewrite Hname.
      destruct Hcases as [-> | [-> | [-> | [-> | [-> | ->]]]]];
        (split; [apply clamp_bounds; cbn; lia |]);
        (intros [Hn | Hn]; first [reflexivity | discriminate Hn]).
Qed.

Lemma payload_respects_descriptor_witness :
  let w := fresh [] None in
  let w' := snd (set_color "led2" "OFF" [(9, 8, 7)] "normal" w) in
  set_color "led2" "OFF" [(9, 8, 7)] "normal" w = (Ok tt, w') /\
  exists m reports,
    getitem _COLOR_MODES (lower "OFF") = Ok m /\
    w_calls w' =
      w_calls w ++ map SendFeatureReport reports ++
      [SendFeatureReport execute_report; Release] /\
    reports <> [] /\
    forall r, In r reports ->
      (takes_color m = false -> report_color r = [0; 0; 0]) /\
      (speed_values m = None -> report_speed r = [0; 0; 0; 0; 0; 0]) /\
      report_brightness r = clamp 100 0 (max_brightness m) /\
      0 <= report_brightness r <= max_brightness m /\
      (lower "OFF" = "static" \/ lower "OFF" = "pulse" ->
       report_brightness r = 90).
Proof.
  intros w w'. split; [reflexivity |].
  apply (payload_respects_descriptor "led2" "OFF" [(9, 8, 7)] "normal" w tt w').
  reflexivity.
Defined.

(** C7: for a mode that takes a color, the first supplied triple
    (red, green, blue) is encoded at the color position as blue, green, red;
    (255, 0, 0) given to mode static is encoded as (0, 0, 255). *)
Theorem color_encoded_blue_green_red channel mode red green blue more speed
  w u w' m :
  getitem _COLOR_MODES (lower mode) = Ok m ->
  takes_color m = true ->
  set_color channel mode ((red, green, blue) :: more) speed w = (Ok u, w') ->
  exists reports,
    w_calls w' =
      w_calls w ++ map SendFeatureReport reports ++
      [SendFeatureReport execute_report; Release] /\
    reports <> [] /\
    forall r, In r reports -> report_color r = [blue; green; red].
Proof.
  intros Hm Htc H.
  apply set_color_ok_calls in H
    as (m' & c0 & c1 & c2 & rest & s0 & s1 & s2 & s3 & s4 & s5 & chans &
        (Hm' & Hc & Hsp & Hch) & Hcalls & _).
  rewrite Hm in Hm'. inversion Hm'; subst m'.
  unfold single_color in Hc. rewrite Htc in Hc. inversion Hc; subst.
  exists (map (settings_report m (c0, c1, c2) [s0; s1; s2; s3; s4; s5]) chans).
  split; [| split].
  - rewrite Hcalls. unfold set_color_calls. rewrite map_map. reflexivity.
  - apply selected_channels_nonempty in Hch.
    destruct chans; [contradiction | discriminate].
  - intros r Hr. apply in_map_iff in Hr as (a & <- & _).
    apply settings_report_fields.
Qed.

Lemma color_encoded_blue_green_red_witness :
  let w := fresh [] None in
  let w' := snd (set_color "led1" "static" [(255, 0, 0)] "normal" w) in
  getitem _COLOR_MODES (lower "static") = Ok mode_static /\
  takes_color mode_static = true /\
  set_color "led1" "static" [(255, 0, 0)] "normal" w = (Ok tt, w') /\
  exists reports,
    w_calls w' =
      w_calls w ++ map SendFeatureReport reports ++
      [SendFeatureReport execute_report; Release] /\
    reports <> [] /\
    forall r, In r reports -> report_color r = [0; 0; 255].
Proof.
  intros w w'. repeat (split; [reflexivity |]).
  apply (color_encoded_blue_green_red "led1" "static" 255 0 0 [] "normal"
           w tt w' mode_static);
    reflexivity.
Defined.

(** ** Claims about rejected and tolerated arguments *)

(** C8: for a mode that takes a color, a call without any color raises the
    missing-color error ([ValueError]) and leaves the world as it was: no
    call reached the device and no warning was emitted.  A call with more
    than one color, whose speed and channel resolve and whose transport does
    not fail, returns; its reports encode the first color only, and exactly
    one warning is emitted, carrying the number of colors dropped. *)
Theorem color_arity channel mode speed w m :
  getitem _COLOR_MODES (lower mode) = Ok m ->
  takes_color m = true ->
  set_color channel mode [] speed w =
    (Raise (ValueError ("One color required for mode=" ++ name m)%string), w)
  /\
  forall red green blue extra more sp chans,
    speed_bytes m (lower speed) = Ok sp ->
    selected_channels (lower channel) = Ok chans ->
    w_budget w = None ->
    exists w',
      set_color channel mode ((red, green, blue) :: extra :: more) speed w =
        (Ok tt, w') /\
      w_calls w' =
        w_calls w ++
        map (fun a => SendFeatureReport
                        (settings_report m (blue, green, red) sp a)) chans ++
        [SendFeatureReport execute_report; Release] /\
      w_warnings w' =
        w_warnings w ++
        [mk_log_record "too many colors for mode=%s, dropping %d" (name m)
                       (S (List.length more))].
Proof.
  intros Hm Htc. split.
  - rewrite set_color_stages, Hm. unfold single_color. rewrite Htc.
    reflexivity.
  - intros red green blue extra more sp chans Hsp Hch Hb.
    assert (Hres : resolves channel mode ((red, green, blue) :: extra :: more)
                            speed m (blue, green, red) (extra :: more) sp
                            chans).
    { unfold resolves, single_color. rewrite Htc. auto. }
    destruct (set_color_returns _ _ _ _ _ _ _ _ _ _ Hres Hb) as (w' & Hrun).
    exists w'. split; [exact Hrun |].
    apply (set_color_ok_resolved _ _ _ _ _ _ _ _ _ _ _ _ Hres) in Hrun
      as (Hcalls & Hwarn & _).
    split; [exact Hcalls | exact Hwarn].
Qed.

Lemma color_arity_witness :
  let w := fresh [] None in
  getitem _COLOR_MODES (lower "static") = Ok mode_static /\
  takes_color mode_static = true /\
  set_color "led1" "static" [] "normal" w =
    (Raise (ValueError "One color required for mode=static"), w) /\
  speed_bytes mode_static (lower "normal") = Ok [0; 0; 0; 0; 0; 0] /\
  selected_channels (lower "led1") = Ok [(0x20, 0x01)] /\
  w_budget w = None /\
  exists w',
    set_color "led1" "static" [(255, 0, 0); (0, 255, 0); (0, 0, 255)]
              "normal" w = (Ok tt, w') /\
    w_calls w' =
      [SendFeatureReport
         (settings_report mode_static (0, 0, 255) [0; 0; 0; 0; 0; 0]
                          (0x20, 0x01));
       SendFeatureReport execute_report; Release] /\
    w_warnings w' =
      [mk_log_record "too many colors for mode=%s, dropping %d" "static" 2].
Proof.
  intros w.
  destruct (color_arity "led1" "static" "normal" w mode_static eq_refl eq_refl)
    as [Hnone Hmany].
  repeat (split; [reflexivity |]).
  exact (Hmany 255 0 0 (0, 255, 0) [(0, 0, 255)] [0; 0; 0; 0; 0; 0]
               [(0x20, 0x01)] eq_refl eq_refl eq_refl).
Defined.

Lemma speed_bytes_Raise m speed e :
  speed_bytes m speed = Raise e -> e = KeyError speed.
Proof.
  unfold speed_bytes, getitem.
  destruct (speed_values m) as [[| kv table] |]; try discriminate.
  destruct (dict_find (kv :: table) speed); [discriminate |].
  intros H. inversion H. reflexivity.
Qed.

(** C9, as the specification states it, fails in its error kind: for
    [set_color("led9", "static", [])] the channel name is unknown and the
    mode name known, yet the call raises the missing-color [ValueError],
    because the color is taken before the channel is looked up. *)
Lemma unknown_channel_error_preempted :
  unknown_channel "led9" /\
  ~ unknown_mode "static" /\
  set_color "led9" "static" [] "normal" (fresh [] None) =
    (Raise (ValueError "One color required for mode=static"), fresh [] None) /\
  forall key, ValueError "One color required for mode=static" <> KeyError key.
Proof.
  split; [split; [discriminate | reflexivity] |].
  split; [discriminate |]. split; [reflexivity |]. discriminate.
Qed.

(** C9 (amended): a [set_color] call with an unknown mode name or an unknown
    channel name raises, and no call has reached the device when it does.
    An unknown mode raises the [KeyError] of the mode lookup at once, with
    the world untouched.  With a known mode, an unknown channel raises the
    [KeyError] of the channel lookup when the color and the speed resolve;
    otherwise the call raises the error of the stage that fails first: the
    missing-color [ValueError], or else the [KeyError] of the speed
    lookup. *)
Theorem unknown_name_rejected channel mode colors speed w :
  unknown_mode mode \/ unknown_channel channel ->
  exists e w',
    set_color channel mode colors speed w = (Raise e, w') /\
    w_calls w' = w_calls w /\
    (unknown_mode mode -> e = KeyError (lower mode) /\ w' = w) /\
    (forall m c rest sp,
       getitem _COLOR_MODES (lower mode) = Ok m ->
       single_color m colors = Ok (c, rest) ->
       speed_bytes m (lower speed) = Ok sp ->
       e = KeyError (lower channel)) /\
    (forall m,
       getitem _COLOR_MODES (lower mode) = Ok m ->
       takes_color m = true -> colors = [] ->
       e = ValueError ("One color required for mode=" ++ name m)%string /\
       w' = w) /\
    (forall m c rest e1,
       getitem _COLOR_MODES (lower mode) = Ok m ->
       single_color m colors = Ok (c, rest) ->
       speed_bytes m (lower speed) = Raise e1 ->
       e = KeyError (lower speed)).
Proof.
  unfold unknown_mode, unknown_channel. intros H.
  rewrite set_color_stages. unfold getitem at 1.
  destruct (dict_find _COLOR_MODES (lower mode)) as [m |] eqn:Hm.
  - destruct H as [H | [Hsync Hch]]; [discriminate |].
    assert (Hsel : selected_channels (lower channel) =
                   Raise (KeyError (lower channel))).
    { unfold selected_channels, getitem. rewrite Hch.
      apply String.eqb_neq in Hsync. rewrite Hsync. reflexivity. }
    rewrite Hsel.
    assert (Hmode : forall m0, getitem _COLOR_MODES (lower mode) = Ok m0 ->
                               m0 = m).
    { intros m0 Hm0. unfold getitem in Hm0. rewrite Hm in Hm0.
      inversion Hm0. reflexivity. }
    destruct (single_color m colors) as [[c rest] | e] eqn:Hc.
    + cbv zeta.
      destruct (speed_bytes m (lower speed)) as [sp | e] eqn:Hsp.
      * eexists. eexists. split; [reflexivity |].
        split; [destruct (Nat.eqb (List.length rest) 0); reflexivity |].
        split; [discriminate |]. split; [reflexivity |]. split.
        -- intros m0 Hm0 Htc Hnil. apply Hmode in Hm0. subst m0 colors.
           unfold single_color in Hc. rewrite Htc in Hc. discriminate.
        -- intros m0 c0 rest0 e1 Hm0 _ Hsp0. apply Hmode in Hm0. subst m0.
           congruence.
      * eexists. eexists. split; [reflexivity |].
        split; [destruct (Nat.eqb (List.length rest) 0); reflexivity |].
        split; [discriminate |]. split; [| split].
        -- intros m0 c0 rest0 sp0 Hm0 _ Hsp0. apply Hmode in Hm0. subst m0.
           congruence.
        -- intros m0 Hm0 Htc Hnil. apply Hmode in Hm0. subst m0 colors.
           unfold single_color in Hc. rewrite Htc in Hc. discriminate.
        -- intros m0 c0 rest0 e1 Hm0 _ Hsp0. apply Hmode in Hm0. subst m0.
           exact (speed_bytes_Raise _ _ _ Hsp).
    + eexists. eexists. split; [reflexivity |]. split; [reflexivity |].
      split; [discriminate |]. split; [| split].
      * intros m0 c0 rest0 sp0 Hm0 Hc0 _. apply Hmode in Hm0. subst m0.
        congruence.
      * intros m0 Hm0 Htc Hnil. apply Hmode in Hm0. subst m0 colors.
        unfold single_color in Hc. rewrite Htc in Hc.
        inversion Hc. split; reflexivity.
      * intros m0 c0 rest0 e1 Hm0 Hc0 _. apply Hmode in Hm0. subst m0.
        congruence.
  - eexists. eexists. split; [reflexivity |]. split; [reflexivity |].
    split; [auto |].
    split; [| split]; intros m0; intros; unfold getitem in *;
      rewrite Hm in *; discriminate.
Qed.

Lemma unknown_name_rejected_witness :
  let w := fresh [] None in
  (unknown_mode "static" \/ unknown_channel "led9") /\
  exists e w',
    set_color "led9" "static" [(1, 2, 3)] "normal" w = (Raise e, w') /\
    w_calls w' = w_calls w /\
    (unknown_mode "static" -> e = KeyError (lower "static") /\ w' = w) /\
    (forall m c rest sp,
       getitem _COLOR_MODES (lower "static") = Ok m ->
       single_color m [(1, 2, 3)] = Ok (c, rest) ->
       speed_bytes m (lower "normal") = Ok sp ->
       e = KeyError (lower "led9")) /\
    (forall m,
       getitem _COLOR_MODES (lower "static") = Ok m ->
       takes_color m = true -> [(1, 2, 3)] = [] ->
       e = ValueError ("One color required for mode=" ++ name m)%string /\
       w' = w) /\
    (forall m c rest e1,
       getitem _COLOR_MODES (lower "static") = Ok m ->
       single_color m [(1, 2, 3)] = Ok (c, rest) ->
       speed_bytes m (lower "normal") = Raise e1 ->
       e = KeyError (lower "normal")).
Proof.
  intros w.
  assert (H : unknown_mode "static" \/ unknown_channel "led9").
  { right. split; [discriminate | reflexivity]. }
  split; [exact H |].
  exact (unknown_name_rejected "led9" "static" [(1, 2, 3)] "normal" w H).
Defined.

(** ** Speed tiers *)

(** Of the twenty-four (mode, tier) pairs, exactly one does not resolve. *)
Lemma speed_tables_entries :
  filter (fun mt => negb (tier_resolves (fst mt) (snd mt)))
         (list_prod speed_modes speed_tiers) =
  [(mode_double_flash, "slower")].
Proof. reflexivity. Qed.

(** C2 fails on the code at mode double-flash and tier "slower": the
    double-flash table has the key "slower " (with a trailing blank)
    instead, so the lookup raises [KeyError] before any write, while the
    name "slower ", which is not one of the six tiers, resolves. *)
Theorem double_flash_slower_raises :
  In mode_double_flash speed_modes /\
  In "slower" speed_tiers /\
  speed_bytes mode_double_flash (lower "slower") =
    Raise (KeyError "slower") /\
  (forall w,
     set_color "led1" "double-flash" [(255, 0, 0)] "slower" w =
       (Raise (KeyError "slower"), w)) /\
  ~ In "slower " speed_tiers /\
  speed_bytes mode_double_flash (lower "slower ") =
    Ok [0x64; 0x00; 0x64; 0x00; 0x60; 0x09].
Proof.
  split; [cbn; tauto |]. split; [cbn; tauto |]. split; [reflexivity |].
  split; [intros w; rewrite set_color_stages; reflexivity |].
  split; [| reflexivity].
  cbn. intros H.
  repeat (destruct H as [H | H]; [discriminate H |]). exact H.
Qed.

(** ** [reset_all_channels] *)

Lemma reset_loop_ok_inv chans : forall w s u w',
  for_each chans reset_channel s w = (Ok u, w') ->
  grows w w'
    (map (fun a => SendFeatureReport (padded [_REPORT_ID; fst a; 0])) chans)
    [].
Proof.
  induction chans as [| [a1 a2] chans IH]; intros w s u w' H.
  - cbn in H. inversion H; subst. apply grows_refl.
  - cbn [for_each] in H.
    apply bind_ok_inv in H as (s1 & w1 & Hbody & Hrest).
    apply send_feature_report_inv in Hbody as [[_ Hg] | [Hr _]];
      [| discriminate].
    apply IH in Hrest.
    exact (grows_trans _ _ _ _ _ _ _ Hg Hrest).
Qed.

Lemma reset_loop_unbounded chans : forall w s,
  w_budget w = None ->
  exists w', for_each chans reset_channel s w = (Ok tt, w') /\
             w_budget w' = None.
Proof.
  induction chans as [| [a1 a2] chans IH]; intros w [] Hb.
  - exists w. split; [reflexivity | exact Hb].
  - destruct (send_feature_report_unbounded [_REPORT_ID; a1; 0] w Hb)
      as (w1 & Hsend & Hb1).
    destruct (IH w1 tt Hb1) as (w' & Hrun & Hb').
    exists w'. split; [| exact Hb'].
    cbn [for_each]. erewrite bind_ok; [exact Hrun | exact Hsend].
Qed.

(** C4, as the specification states it, fails: the report written for led1,
    whose address pair is (0x20, 0x01), has 0 at byte 2, so the calls are
    not those that carry each channel's full address pair. *)
Lemma reset_drops_second_address_byte :
  let w' := snd (reset_all_channels (fresh [] None)) in
  reset_all_channels (fresh [] None) = (Ok tt, w') /\
  getitem _COLOR_CHANNELS "led1" = Ok (0x20, 0x01) /\
  hd_error (w_calls w') =
    Some (SendFeatureReport ([0xcc; 0x20; 0x00] ++ repeat 0 61)) /\
  w_calls w' <> reset_calls snd.
Proof.
  intros w'. repeat (split; [reflexivity |]).
  vm_compute. intros H. discriminate H.
Qed.

(** C4 (amended): when [reset_all_channels] returns it has written exactly
    one report per channel of the table, in definition order, each of 64
    bytes with the report identifier at byte 0, the first byte of the
    channel's address at byte 1 and zero in every other byte (byte 2
    included), followed by exactly one execute command; with a transport
    that does not fail, it does return. *)
Theorem reset_all_channels_writes w :
  (forall u w',
     reset_all_channels w = (Ok u, w') ->
     w_calls w' =
       w_calls w ++
       map (fun ka =>
              SendFeatureReport ([0xcc; fst (snd ka)] ++ repeat 0 62))
           _COLOR_CHANNELS ++
       [SendFeatureReport ([0xcc; 0x28; 0xff] ++ repeat 0 61)]) /\
  (w_budget w = None -> exists w', reset_all_channels w = (Ok tt, w')).
Proof.
  split.
  - intros u w' H. unfold reset_all_channels in H.
    apply bind_ok_inv in H as (s & w1 & Hloop & Hexec).
    apply (reset_loop_ok_inv (values _COLOR_CHANNELS)) in Hloop
      as (Hc1 & _ & _).
    apply send_feature_report_inv in Hexec as [[_ (Hc2 & _ & _)] | [Hr _]];
      [| discriminate].
    rewrite Hc2, Hc1, <- app_assoc. reflexivity.
  - intros Hb. unfold reset_all_channels.
    destruct (reset_loop_unbounded (values _COLOR_CHANNELS) w tt Hb)
      as (w1 & Hloop & Hb1).
    destruct (send_feature_report_unbounded [_REPORT_ID; 0x28; 0xff] w1 Hb1)
      as (w2 & Hexec & _).
    exists w2.
    change (for_each (values _COLOR_CHANNELS)
              (fun '(addr1, _) (_ : unit) =>
                 _send_feature_report [_REPORT_ID; addr1; 0]) tt)
      with (for_each (values _COLOR_CHANNELS) reset_channel tt).
    erewrite bind_ok by exact Hloop. exact Hexec.
Qed.

Lemma reset_all_channels_writes_witness :
  let w := fresh [] None in
  let w' := snd (reset_all_channels w) in
  w_budget w = None /\
  reset_all_channels w = (Ok tt, w') /\
  w_calls w' =
    w_calls w ++
    map (fun ka => SendFeatureReport ([0xcc; fst (snd ka)] ++ repeat 0 62))
        _COLOR_CHANNELS ++
    [SendFeatureReport ([0xcc; 0x28; 0xff] ++ repeat 0 61)].
Proof.
  intros w w'.
  assert (Hrun : reset_all_channels w = (Ok tt, w')) by reflexivity.
  split; [reflexivity |]. split; [exact Hrun |].
  exact (proj1 (reset_all_channels_writes w) tt w' Hrun).
Defined.

(** ** [initialize] *)

(** Either the transport raised, before the release or at it, or the three
    calls were made and the outcome is that of [decode] on the response. *)
Lemma initialize_inv w r w' :
  initialize w = (r, w') ->
  (r = Raise TransportError /\
   exists cs, w_calls w' = w_calls w ++ cs /\ ~ In Release cs) \/
  (r = decode (w_reply w) /\ grows w w' init_calls []).
Proof.
  unfold initialize. intros H.
  apply bind_inv in H as [(u1 & w1 & Hsend & H) | (e & Hsend & ->)].
  2:{ left. apply send_feature_report_inv in Hsend as [[Hr _] | [Hr ->]];
        [discriminate |].
      split; [inversion Hr; reflexivity |]. exists []. rewrite app_nil_r. auto. }
  apply send_feature_report_inv in Hsend as [[_ Hg1] | [Hr _]];
    [| discriminate].
  apply bind_inv in H as [(data & w2 & Hget & H) | (e & Hget & ->)].
  2:{ left. unfold _get_feature_report, device_get_feature_report in Hget.
      apply bind_inv in Hget as [(u & w2 & _ & Hr) | (e' & Hcall & He)];
        [discriminate |].
      apply call_device_inv in Hcall as [[Hr _] | [Hr ->]]; [discriminate |].
      inversion He; subst e. split; [inversion Hr; reflexivity |].
      destruct Hg1 as (Hc & _ & _). eexists. split; [exact Hc |].
      intros [Hin | []]. discriminate. }
  unfold _get_feature_report, device_get_feature_report in Hget.
  apply bind_ok_inv in Hget as (u2 & w2' & Hcall & Hread).
  inversion Hread; subst data w2'. clear Hread.
  apply call_device_ok_inv in Hcall. rename Hcall into Hg2.
  pose proof (grows_trans _ _ _ _ _ _ _ Hg1 Hg2) as Hg12.
  apply bind_inv in H as [(u3 & w3 & Hrel & H) | (e & Hrel & ->)].
  2:{ left. apply call_device_inv in Hrel as [[Hr _] | [Hr ->]];
        [discriminate |].
      split; [inversion Hr; reflexivity |]. destruct Hg12 as (Hc & _ & _).
      eexists. split; [exact Hc |].
      intros [Hin | [Hin | []]]; discriminate. }
  apply call_device_ok_inv in Hrel.
  pose proof (grows_trans _ _ _ _ _ _ _ Hg12 Hrel) as Hg.
  right.
  assert (Hreply : w_reply w2 = w_reply w) by (destruct Hg12 as (_ & _ & E); exact E).
  rewrite Hreply in H.
  cbv [bind lift ret] in H. unfold decode.
  destruct (assert_handshake (w_reply w)); [| inversion H; subst; split; [reflexivity | exact Hg]].
  destruct (index_from 0 12 (w_reply w)); [| inversion H; subst; split; [reflexivity | exact Hg]].
  destruct (bytes (slice (w_reply w) 12 a0)); [| inversion H; subst; split; [reflexivity | exact Hg]].
  destruct (fmt_version (slice (w_reply w) 4 8)); [| inversion H; subst; split; [reflexivity | exact Hg]].
  destruct (item (w_reply w) 3);
    (inversion H; subst; split; [reflexivity | exact Hg]).
Qed.

Lemma initialize_unbounded w :
  w_budget w = None ->
  exists w', initialize w = (decode (w_reply w), w').
Proof.
  intros Hb. unfold initialize.
  destruct (send_feature_report_unbounded [_REPORT_ID; _INIT_CMD] w Hb)
    as (w1 & Hsend & Hb1).
  assert (Hreply1 : w_reply w1 = w_reply w).
  { apply send_feature_report_inv in Hsend as [[_ (_ & _ & E)] | [Hr _]];
      [exact E | discriminate]. }
  erewrite bind_ok by exact Hsend.
  unfold _get_feature_report, device_get_feature_report.
  erewrite bind_ok
    by (erewrite bind_ok by (apply call_device_unbounded; exact Hb1);
        reflexivity).
  unfold device_release.
  erewrite bind_ok by (apply call_device_unbounded; reflexivity).
  cbn [w_reply]. rewrite Hreply1.
  eexists. cbv [bind lift ret]. unfold decode.
  destruct (assert_handshake (w_reply w)); [| reflexivity].
  destruct (index_from 0 12 (w_reply w)); [| reflexivity].
  destruct (bytes (slice (w_reply w) 12 a0)); [| reflexivity].
  destruct (fmt_version (slice (w_reply w) 4 8)); [| reflexivity].
  destruct (item (w_reply w) 3); reflexivity.
Qed.

(** *** Searching the terminator *)

Lemma list_index_Some x l : forall i,
  list_index x l = Some i ->
  nth_error l i = Some x /\
  forall j, (j < i)%nat -> nth_error l j <> Some x.
Proof.
  induction l as [| y l IH]; intros i H; cbn in H; [discriminate |].
  destruct (Z.eqb y x) eqn:E.
  - inversion H; subst i. apply Z.eqb_eq in E. subst y.
    split; [reflexivity | intros j Hj; lia].
  - destruct (list_index x l) as [i' |]; [| discriminate].
    inversion H; subst i. destruct (IH i' eq_refl) as [Hn Hmin].
    split; [exact Hn |].
    intros [| j] Hj; cbn.
    + apply Z.eqb_neq in E. congruence.
    + apply Hmin. lia.
Qed.

Lemma list_index_In x l :
  In x l -> exists i, list_index x l = Some i.
Proof.
  induction l as [| y l IH]; intros H; [destruct H |].
  cbn. destruct (Z.eqb y x) eqn:E; [eexists; reflexivity |].
  destruct H as [H | H]; [apply Z.eqb_neq in E; congruence |].
  destruct (IH H) as [i ->]. eexists. reflexivity.
Qed.

(** [index_from] returns the least position from [start] on that holds [x]. *)
Lemma index_from_Ok x start l n :
  index_from x start l = Ok n ->
  (start <= n)%nat /\
  nth_error l n = Some x /\
  forall i, (start <= i < n)%nat -> nth_error l i <> Some x.
Proof.
  unfold index_from.
  destruct (list_index x (skipn start l)) as [i |] eqn:E; [| discriminate].
  intros H. inversion H; subst n.
  apply list_index_Some in E as [Hn Hmin].
  rewrite nth_error_skipn in Hn.
  split; [lia |]. split; [exact Hn |].
  intros j Hj. replace j with (start + (j - start))%nat by lia.
  rewrite <- nth_error_skipn. apply Hmin. lia.
Qed.

Lemma index_from_found x start l i :
  (start <= i)%nat -> nth_error l i = Some x ->
  exists n, index_from x start l = Ok n.
Proof.
  intros Hi Hn. unfold index_from.
  assert (Hin : In x (skipn start l)).
  { apply (nth_error_In _ (i - start)). rewrite nth_error_skipn.
    replace (start + (i - start))%nat with i by lia. exact Hn. }
  apply list_index_In in Hin as [k ->]. eexists. reflexivity.
Qed.

Lemma assert_handshake_Ok data u :
  assert_handshake data = Ok u ->
  nth_error data 0 = Some _REPORT_ID /\ nth_error data 1 = Some 0x01.
Proof.
  unfold assert_handshake, item.
  destruct (nth_error data 0) as [b0 |]; [| discriminate].
  destruct (Z.eqb b0 _REPORT_ID) eqn:E0; [| discriminate].
  destruct (nth_error data 1) as [b1 |]; [| discriminate].
  destruct (Z.eqb b1 0x01) eqn:E1; [| discriminate].
  apply Z.eqb_eq in E0, E1. subst. auto.
Qed.

Lemma bytes_in_range l :
  Forall (fun x => 0 <= x < 256) l -> bytes l = Ok l.
Proof.
  intros H. unfold bytes.
  assert (E : forallb (fun x => (0 <=? x) && (x <? 256)) l = true).
  { apply forallb_forall. rewrite Forall_forall in H. intros x Hx.
    specialize (H x Hx). apply andb_true_iff. split; [lia | lia]. }
  rewrite E. reflexivity.
Qed.

Lemma In_skipn {A : Type} (x : A) n l : In x (skipn n l) -> In x l.
Proof.
  intros H. rewrite <- (firstn_skipn n l). apply in_or_app. right. exact H.
Qed.

Lemma slice_4_8 data :
  (8 <= List.length data)%nat ->
  exists v0 v1 v2 v3, slice data 4 8 = [v0; v1; v2; v3].
Proof.
  intros H.
  destruct data as [| d0 [| d1 [| d2 [| d3 [| d4 [| d5 [| d6 [| d7 t]]]]]]]];
    cbn in H; try lia.
  exists d4, d5, d6, d7. reflexivity.
Qed.

Lemma fmt_version_Ok t fw :
  fmt_version t = Ok fw ->
  exists v0 v1 v2 v3,
    t = [v0; v1; v2; v3] /\
    fw = (fmt_d v0 ++ "." ++ fmt_d v1 ++ "." ++ fmt_d v2 ++ "." ++ fmt_d v3)%string.
Proof.
  destruct t as [| v0 [| v1 [| v2 [| v3 [| v4 t]]]]]; try discriminate.
  intros H. inversion H. exists v0, v1, v2, v3. auto.
Qed.

(** A failed assertion: nothing of the response is parsed, whatever the
    rest of it holds. *)
Lemma decode_bad_handshake data b0 b1 :
  nth_error data 0 = Some b0 ->
  nth_error data 1 = Some b1 ->
  b0 <> _REPORT_ID \/ b1 <> 0x01 ->
  decode data = Raise AssertionError.
Proof.
  intros H0 H1 Hbad. unfold decode, assert_handshake, item.
  rewrite H0, H1.
  destruct (Z.eqb b0 _REPORT_ID) eqn:E0; [| reflexivity].
  destruct (Z.eqb b1 0x01) eqn:E1; [| reflexivity].
  apply Z.eqb_eq in E0, E1. destruct Hbad; contradiction.
Qed.

Lemma decode_Ok_inv data res :
  decode data = Ok res ->
  exists null channels v0 v1 v2 v3,
    nth_error data 0 = Some _REPORT_ID /\
    nth_error data 1 = Some 0x01 /\
    (12 <= null)%nat /\
    nth_error data null = Some 0 /\
    (forall i, (12 <= i < null)%nat -> nth_error data i <> Some 0) /\
    nth_error data 3 = Some channels /\
    slice data 4 8 = [v0; v1; v2; v3] /\
    res =
      [ ("Hardware name", PyStr (str_ascii_ignore (slice data 12 null)), "");
        ("Firmware version",
         PyStr (fmt_d v0 ++ "." ++ fmt_d v1 ++ "." ++ fmt_d v2 ++ "." ++
                fmt_d v3)%string, "");
        ("LED channnels", PyInt channels, "") ].
Proof.
  unfold decode.
  destruct (assert_handshake data) as [u | e] eqn:Ha; [| discriminate].
  destruct (index_from 0 12 data) as [null | e] eqn:Hi; [| discriminate].
  destruct (bytes (slice data 12 null)) as [raw | e] eqn:Hb; [| discriminate].
  destruct (fmt_version (slice data 4 8)) as [fw | e] eqn:Hf; [| discriminate].
  destruct (item data 3) as [channels | e] eqn:Hc; [| discriminate].
  intros H. inversion H; subst res. clear H.
  apply assert_handshake_Ok in Ha as [H0 H1].
  apply index_from_Ok in Hi as (Hle & Hnull & Hmin).
  apply fmt_version_Ok in Hf as (v0 & v1 & v2 & v3 & Hslice & ->).
  unfold bytes in Hb.
  destruct (forallb _ (slice data 12 null)); inversion Hb; subst raw.
  unfold item in Hc.
  destruct (nth_error data 3) as [c |] eqn:H3; inversion Hc; subst c.
  exists null, channels, v0, v1, v2, v3. repeat split; assumption.
Qed.

(** A well-formed response decodes. *)
Lemma decode_total data i :
  nth_error data 0 = Some _REPORT_ID ->
  nth_error data 1 = Some 0x01 ->
  (12 <= i)%nat -> nth_error data i = Some 0 ->
  Forall (fun x => 0 <= x < 256) data ->
  exists res, decode data = Ok res.
Proof.
  intros H0 H1 Hi Hz Hrange.
  assert (Hlen : (i < List.length data)%nat).
  { apply nth_error_Some. rewrite Hz. discriminate. }
  unfold decode, assert_handshake, item. rewrite H0, H1. cbn [Z.eqb].
  rewrite !Z.eqb_refl.
  destruct (index_from_found 0 12 data i Hi Hz) as [null ->].
  rewrite bytes_in_range.
  2:{ rewrite Forall_forall in *. intros x Hx. apply Hrange.
      unfold slice in Hx. apply In_firstn, In_skipn in Hx. exact Hx. }
  destruct (slice_4_8 data) as (v0 & v1 & v2 & v3 & ->); [lia |].
  cbn [fmt_version].
  destruct (nth_error data 3) as [c |] eqn:H3.
  - eexists. reflexivity.
  - apply nth_error_None in H3. lia.
Qed.

(** ** The public operations and the device handle *)

(** C1, as the specification states it, fails: [reset_all_channels] and
    [get_status] both run to completion on a fresh device without releasing
    it; the former ends on the execute command, the latter makes no call. *)
Lemma release_missing :
  let w := fresh [] None in
  (fst (run ResetAllChannels w) = None /\
   last (w_calls (snd (run ResetAllChannels w))) Release =
     SendFeatureReport execute_report /\
   ~ released w (snd (run ResetAllChannels w))) /\
  (fst (run GetStatus w) = None /\
   snd (run GetStatus w) = w /\
   ~ released w (snd (run GetStatus w))).
Proof.
  intros w. split; (split; [reflexivity |]); (split; [reflexivity |]).
  - intros (cs & Hcs & Hin). cbn [w_calls w fresh app] in Hcs. subst cs.
    vm_compute in Hin.
    repeat (destruct Hin as [Hin | Hin]; [discriminate Hin |]). exact Hin.
  - intros (cs & Hcs & Hin). cbn in Hcs. subst cs. destruct Hin.
Qed.

(** C1 (amended): [initialize] and [set_color], when they run to
    completion, have released the device, and the release is the last call
    they made on it; [get_status] makes no call on the device at all: it
    leaves the world as it was. *)
Theorem handle_released op w w' :
  op <> ResetAllChannels ->
  run op w = (None, w') ->
  (op = GetStatus -> w' = w) /\
  (op <> GetStatus -> exists cs, w_calls w' = w_calls w ++ cs ++ [Release]).
Proof.
  intros Hop H. destruct op as [| channel mode colors speed | |]; unfold run in H.
  - split; [discriminate |]. intros _.
    destruct (initialize w) as [[res | e] w1] eqn:Hrun;
      inversion H; subst.
    apply initialize_inv in Hrun as [[Hr _] | [_ (Hc & _ & _)]];
      [discriminate |].
    exists [SendFeatureReport (padded [_REPORT_ID; _INIT_CMD]);
            GetFeatureReport _REPORT_ID _READ_LENGTH].
    exact Hc.
  - split; [discriminate |]. intros _.
    destruct (set_color channel mode colors speed w) as [[u | e] w1] eqn:Hrun;
      inversion H; subst.
    apply set_color_ok_inv in Hrun
      as (m & c & rest & sp & chans & _ & Hc & _).
    exists (map (fun a => SendFeatureReport (settings_report m c sp a)) chans ++
            [SendFeatureReport execute_report]).
    rewrite Hc. unfold set_color_calls. rewrite <- app_assoc. reflexivity.
  - contradiction.
  - split; [| intros Hne; contradiction].
    intros _. unfold get_status, ret in H. inversion H. reflexivity.
Qed.

Lemma handle_released_witness :
  let op := SetColor "led5" "flash" [(0, 255, 0)] "faster" in
  let w := fresh [] None in
  let w' := snd (run op w) in
  let w2 := snd (run GetStatus w) in
  (op <> ResetAllChannels /\
   run op w = (None, w') /\
   exists cs, w_calls w' = w_calls w ++ cs ++ [Release]) /\
  (GetStatus <> ResetAllChannels /\
   run GetStatus w = (None, w2) /\
   w2 = w).
Proof.
  intros op w w' w2.
  assert (Hop : op <> ResetAllChannels) by discriminate.
  assert (Hrun : run op w = (None, w')) by reflexivity.
  assert (Hne : op <> GetStatus) by discriminate.
  assert (Hop2 : GetStatus <> ResetAllChannels) by discriminate.
  assert (Hrun2 : run GetStatus w = (None, w2)) by reflexivity.
  split.
  - split; [exact Hop |]. split; [exact Hrun |].
    exact (proj2 (handle_released op w w' Hop Hrun) Hne).
  - split; [exact Hop2 |]. split; [exact Hrun2 |].
    exact (proj1 (handle_released GetStatus w w2 Hop2 Hrun2) eq_refl).
Defined.

(** * Further properties of the driver *)

(** ** Call scripts *)

Lemma bind_assoc {A B C : Type} (m : M A) (f : A -> M B) (g : B -> M C) w :
  bind (bind m f) g w = bind m (fun a => bind (f a) g) w.
Proof. unfold bind. destruct (m w) as [[a | e] w1]; reflexivity. Qed.

Lemma bind_ret_unit (m : M unit) w : bind m (fun _ => ret tt) w = m w.
Proof. unfold bind, ret. destruct (m w) as [[[] | e] w1]; reflexivity. Qed.

Lemma bind_ext {A B : Type} (m : M A) (f g : A -> M B) w :
  (forall a w1, f a w1 = g a w1) -> bind m f w = bind m g w.
Proof.
  intros H. unfold bind. destruct (m w) as [[a | e] w1]; [apply H | reflexivity].
Qed.

(** A script runs as far as the budget lets it, and no further. *)
Lemma run_calls_spec cs : forall w,
  run_calls cs w =
    (if enough (w_budget w) (List.length cs) then Ok tt
     else Raise TransportError,
     after w (allowed (w_budget w) cs) []).
Proof.
  induction cs as [| c cs IH]; intros w.
  - destruct w as [calls reply [b |] warn]; unfold after, ret; cbn;
      rewrite ?firstn_nil, !app_nil_r; cbn; rewrite ?Nat.sub_0_r; reflexivity.
  - cbn [run_calls]. unfold bind, call_device.
    destruct w as [calls reply [[| b] |] warn]; cbn [w_budget].
    + unfold after. cbn. rewrite !app_nil_r. reflexivity.
    + rewrite IH. unfold after. cbn. rewrite <- app_assoc. reflexivity.
    + rewrite IH. unfold after. cbn. rewrite <- app_assoc. reflexivity.
Qed.

Lemma run_calls_app cs1 cs2 : forall w,
  run_calls (cs1 ++ cs2) w = bind (run_calls cs1) (fun _ => run_calls cs2) w.
Proof.
  induction cs1 as [| c cs1 IH]; intros w; [reflexivity |].
  cbn [app run_calls]. rewrite bind_assoc. apply bind_ext. intros _ w1.
  apply IH.
Qed.

(** The loop of [set_color] is the script of its writes. *)
Lemma send_loop_script {B : Type} (k : M B) chans : forall x data w,
  bind (for_each chans send_per_channel (x :: data)) (fun _ => k) w =
  bind (run_calls (settings_writes (x :: data) chans)) (fun _ => k) w.
Proof.
  induction chans as [| [a1 a2] chans IH]; intros x data w; [reflexivity |].
  cbn [for_each settings_writes map run_calls fst snd].
  rewrite !bind_assoc. unfold send_per_channel at 1.
  rewrite bind_assoc.
  change (_send_feature_report (set_slice_1_3 (x :: data) a1 a2))
    with (call_device
            (SendFeatureReport (padded (set_slice_1_3 (x :: data) a1 a2)))).
  apply bind_ext. intros _ w1.
  change (bind (ret (set_slice_1_3 (x :: data) a1 a2))
               (fun a => bind (for_each chans send_per_channel a)
                              (fun _ => k)) w1)
    with (bind (for_each chans send_per_channel
                  (x :: firstn 0 data ++ [a1; a2] ++ skipn 2 data))
               (fun _ => k) w1).
  rewrite IH. reflexivity.
Qed.

Lemma transmit_script x data chans w :
  transmit (x :: data) chans w =
  run_calls (settings_writes (x :: data) chans ++
             [SendFeatureReport execute_report; Release]) w.
Proof.
  unfold transmit. rewrite send_loop_script, run_calls_app.
  apply bind_ext. intros _ w1. cbn [run_calls].
  apply bind_ext. intros _ w2. symmetry. apply bind_ret_unit.
Qed.

(** The loop of [reset_all_channels] is the script of its writes. *)
Lemma reset_loop_script {B : Type} (k : M B) chans : forall s w,
  bind (for_each chans reset_channel s) (fun _ => k) w =
  bind (run_calls
          (map (fun a => SendFeatureReport (padded [_REPORT_ID; fst a; 0]))
               chans))
       (fun _ => k) w.
Proof.
  induction chans as [| [a1 a2] chans IH]; intros s w; [reflexivity |].
  cbn [for_each map run_calls fst]. rewrite !bind_assoc.
  change (reset_channel (a1, a2) s)
    with (call_device (SendFeatureReport (padded [_REPORT_ID; a1; 0]))).
  apply bind_ext. intros u w1. apply IH.
Qed.

Lemma reset_all_channels_script w :
  reset_all_channels w = run_calls reset_script w.
Proof.
  unfold reset_all_channels, reset_script.
  change (for_each (values _COLOR_CHANNELS)
            (fun '(addr1, _) (_ : unit) =>
               _send_feature_report [_REPORT_ID; addr1; 0]) tt)
    with (for_each (values _COLOR_CHANNELS) reset_channel tt).
  rewrite reset_loop_script, run_calls_app.
  apply bind_ext. intros _ w1. symmetry. apply bind_ret_unit.
Qed.

Lemma In_allowed budget cs c : In c (allowed budget cs) -> In c cs.
Proof. destruct budget as [b |]; [apply In_firstn | exact (fun H => H)]. Qed.

(** A script that ends on the release has released only when it has run to
    its end. *)
Lemma allowed_without_last budget pre c :
  enough budget (List.length (pre ++ [c])) = false ->
  exists b, budget = Some b /\ (b <= List.length pre)%nat /\
            allowed budget (pre ++ [c]) = firstn b pre.
Proof.
  destruct budget as [b |]; [| discriminate]. cbn [enough allowed].
  rewrite length_app. cbn [List.length]. intros H.
  apply Nat.leb_gt in H. exists b. split; [reflexivity |].
  split; [lia |].
  rewrite firstn_app. replace (b - List.length pre)%nat with 0%nat by lia.
  rewrite firstn_0, app_nil_r. reflexivity.
Qed.

Lemma set_color_calls_length m c sp chans :
  List.length (set_color_calls m c sp chans) = (List.length chans + 2)%nat.
Proof. unfold set_color_calls. rewrite length_app, length_map. reflexivity. Qed.

(** ** [set_color] and the transport *)

(** The outcome and the final world of a call whose arguments resolve. *)
Lemma set_color_resolved_run channel mode colors speed w m c rest sp chans :
  resolves channel mode colors speed m c rest sp chans ->
  set_color channel mode colors speed w =
    (if enough (w_budget w) (List.length chans + 2) then Ok tt
     else Raise TransportError,
     after w (allowed (w_budget w) (set_color_calls m c sp chans))
           (too_many_colors m rest)).
Proof.
  intros (Hm & Hc & Hsp & Hch).
  rewrite set_color_stages, Hm, Hc, Hsp, Hch. cbv zeta.
  destruct c as [[c0 c1] c2].
  etransitivity; [apply (transmit_script _REPORT_ID) |].
  rewrite run_calls_spec.
  change (settings_writes (_REPORT_ID :: _) chans ++
          [SendFeatureReport execute_report; Release])
    with (set_color_calls m (c0, c1, c2) sp chans).
  rewrite set_color_calls_length.
  unfold too_many_colors, after.
  destruct (Nat.eqb (List.length rest) 0); cbn [w_calls w_reply w_budget
                                                w_warnings];
    rewrite ?app_nil_r; reflexivity.
Qed.


(** X1: when its arguments resolve, [set_color] makes the calls of one fixed
    script, the settings write of each selected channel in order, the
    execute command, the release, and stops at the first call that the
    transport refuses: it returns exactly when the transport lets
    [len(channels) + 2] calls through, and raises the transport's error
    otherwise, the calls made before it staying made.  The warning for
    left-over colors is logged in both cases. *)
Theorem set_color_runs_script channel mode colors speed w m c rest sp chans :
  resolves channel mode colors speed m c rest sp chans ->
  set_color channel mode colors speed w =
    (if enough (w_budget w) (List.length chans + 2) then Ok tt
     else Raise TransportError,
     after w (allowed (w_budget w) (set_color_calls m c sp chans))
           (too_many_colors m rest)).
Proof. apply set_color_resolved_run. Qed.

Lemma set_color_runs_script_witness :
  let w := fresh [] (Some 4%nat) in
  resolves "sync" "off" [(1, 2, 3)] "normal" mode_off (0, 0, 0) [(1, 2, 3)]
           [0; 0; 0; 0; 0; 0] (values _COLOR_CHANNELS) /\
  set_color "sync" "off" [(1, 2, 3)] "normal" w =
    (Raise TransportError,
     mk_world
       (map (fun a => SendFeatureReport
                        (settings_report mode_off (0, 0, 0)
                                         [0; 0; 0; 0; 0; 0] a))
            [(0x20, 0x01); (0x21, 0x02); (0x22, 0x04); (0x23, 0x08)])
       [] (Some 0%nat)
       [mk_log_record "too many colors for mode=%s, dropping %d" "off" 1]).
Proof.
  intros w.
  assert (H : resolves "sync" "off" [(1, 2, 3)] "normal" mode_off (0, 0, 0)
                       [(1, 2, 3)] [0; 0; 0; 0; 0; 0]
                       (values _COLOR_CHANNELS)) by (repeat split).
  split; [exact H |].
  exact (set_color_runs_script "sync" "off" [(1, 2, 3)] "normal" w mode_off
           (0, 0, 0) [(1, 2, 3)] [0; 0; 0; 0; 0; 0] (values _COLOR_CHANNELS)
           H).
Defined.

Lemma app_same_head {A : Type} (l cs : list A) : l = l ++ cs -> cs = [].
Proof.
  intros H. rewrite <- (app_nil_r l) in H at 1.
  apply app_inv_head in H. symmetry. exact H.
Qed.

(** X2: a [set_color] call that raises, whatever it raises, has not released
    the device: the release is the last statement of the function and no
    exit path but the normal one reaches it. *)
Theorem set_color_raise_keeps_handle channel mode colors speed w e w' :
  set_color channel mode colors speed w = (Raise e, w') ->
  exists cs, w_calls w' = w_calls w ++ cs /\ ~ In Release cs.
Proof.
  intros H0. pose proof H0 as H. rewrite set_color_stages in H.
  assert (Hnil : forall w1 : world, w_calls w1 = w_calls w ->
            exists cs, w_calls w1 = w_calls w ++ cs /\ ~ In Release cs).
  { intros w1 E. exists []. rewrite app_nil_r. split; [exact E | intros []]. }
  destruct (getitem _COLOR_MODES (lower mode)) as [m | e0] eqn:Hm.
  2:{ inversion H; subst. apply Hnil. reflexivity. }
  destruct (single_color m colors) as [[c rest] | e0] eqn:Hc.
  2:{ inversion H; subst. apply Hnil. reflexivity. }
  cbv zeta in H.
  destruct (speed_bytes m (lower speed)) as [sp | e0] eqn:Hsp.
  2:{ inversion H; subst. apply Hnil.
      destruct (Nat.eqb (List.length rest) 0); reflexivity. }
  destruct (selected_channels (lower channel)) as [chans | e0] eqn:Hch.
  2:{ inversion H; subst. apply Hnil.
      destruct (Nat.eqb (List.length rest) 0); reflexivity. }
  clear H Hnil.
  assert (Hres : resolves channel mode colors speed m c rest sp chans)
    by (unfold resolves; auto).
  rewrite (set_color_resolved_run _ _ _ _ w _ _ _ _ _ Hres) in H0.
  rewrite <- set_color_calls_length with (m := m) (c := c) (sp := sp) in H0.
  destruct (enough (w_budget w) (List.length (set_color_calls m c sp chans)))
    eqn:Hen; [discriminate |].
  inversion H0; subst e w'. clear H0. unfold after. cbn [w_calls].
  unfold set_color_calls in *.
  change [SendFeatureReport execute_report; Release]
    with ([SendFeatureReport execute_report] ++ [Release]) in *.
  rewrite app_assoc in *.
  apply allowed_without_last in Hen as (b & _ & _ & ->).
  eexists. split; [reflexivity |].
  intros Hin. apply In_firstn, in_app_or in Hin as [Hin | [Hin | []]].
  - apply in_map_iff in Hin as (a & Ha & _). discriminate.
  - discriminate.
Qed.

Lemma set_color_raise_keeps_handle_witness :
  let w := fresh [] (Some 8%nat) in
  let w' := snd (set_color "sync" "static" [(255, 0, 0)] "normal" w) in
  set_color "sync" "static" [(255, 0, 0)] "normal" w =
    (Raise TransportError, w') /\
  List.length (w_calls w') = 8%nat /\
  exists cs, w_calls w' = w_calls w ++ cs /\ ~ In Release cs.
Proof.
  intros w w'.
  assert (H : set_color "sync" "static" [(255, 0, 0)] "normal" w =
              (Raise TransportError, w')) by reflexivity.
  split; [exact H |]. split; [reflexivity |].
  exact (set_color_raise_keeps_handle _ _ _ _ w TransportError w' H).
Defined.

(** ** [reset_all_channels] and [initialize] and the transport *)

Lemma reset_all_channels_run w :
  reset_all_channels w =
    (if enough (w_budget w) 8 then Ok tt else Raise TransportError,
     after w (allowed (w_budget w) reset_script) []).
Proof. rewrite reset_all_channels_script, run_calls_spec. reflexivity. Qed.

(** X3: [reset_all_channels] makes the calls of one fixed script of eight
    writes, one report per channel and the execute command, and stops at
    the first that the transport refuses: it returns exactly when eight
    calls go through.  Whatever the outcome, every call it has made is a
    write: it never reads from the device and never releases it. *)
Theorem reset_all_channels_only_writes w :
  reset_all_channels w =
    (if enough (w_budget w) 8 then Ok tt else Raise TransportError,
     after w (allowed (w_budget w) reset_script) []) /\
  forall r w',
    reset_all_channels w = (r, w') ->
    exists cs, w_calls w' = w_calls w ++ cs /\
               forall c, In c cs -> exists d, c = SendFeatureReport d.
Proof.
  split; [apply reset_all_channels_run |].
  intros r w' H. rewrite reset_all_channels_run in H. inversion H; subst.
  eexists. split; [reflexivity |].
  intros c Hin. apply In_allowed in Hin. cbn in Hin.
  repeat (destruct Hin as [Hin | Hin]; [subst c; eexists; reflexivity |]).
  destruct Hin.
Qed.

Lemma reset_all_channels_only_writes_witness :
  let w := fresh [] (Some 2%nat) in
  let w' := snd (reset_all_channels w) in
  reset_all_channels w = (Raise TransportError, w') /\
  w_calls w' =
    [SendFeatureReport ([0xcc; 0x20] ++ repeat 0 62);
     SendFeatureReport ([0xcc; 0x21] ++ repeat 0 62)] /\
  exists cs, w_calls w' = w_calls w ++ cs /\
             forall c, In c cs -> exists d, c = SendFeatureReport d.
Proof.
  intros w w'.
  assert (H : reset_all_channels w = (Raise TransportError, w'))
    by reflexivity.
  split; [exact H |]. split; [reflexivity |].
  exact (proj2 (reset_all_channels_only_writes w) _ _ H).
Defined.

(** The statements of [initialize] that follow the release. *)
Lemma decode_stage data w :
  (lift (assert_handshake data) ;;
   null <- lift (index_from 0 12 data) ;;
   raw <- lift (bytes (slice data 12 null)) ;;
   let dev_name := str_ascii_ignore raw in
   let fw_version := slice data 4 8 in
   fw <- lift (fmt_version fw_version) ;;
   channels <- lift (item data 3) ;;
   ret [ ("Hardware name", PyStr dev_name, "");
         ("Firmware version", PyStr fw, "");
         ("LED channnels", PyInt channels, "") ]) w =
  (decode data, w).
Proof.
  cbv [bind lift ret decode].
  destruct (assert_handshake data); [| reflexivity].
  destruct (index_from 0 12 data) as [null |]; [| reflexivity].
  destruct (bytes (slice data 12 null)); [| reflexivity].
  destruct (fmt_version (slice data 4 8)); [| reflexivity].
  destruct (item data 3); reflexivity.
Qed.

Lemma bind_ext_run {A B : Type} (m : M A) (f g : A -> M B) w :
  (forall a w1, m w = (Ok a, w1) -> f a w1 = g a w1) ->
  bind m f w = bind m g w.
Proof.
  intros H. unfold bind. destruct (m w) as [[a | e] w1]; [| reflexivity].
  apply H. reflexivity.
Qed.

Lemma initialize_script w :
  initialize w =
  bind (run_calls init_calls) (fun _ w1 => (decode (w_reply w1), w1)) w.
Proof.
  unfold initialize, init_calls. cbn [run_calls]. rewrite !bind_assoc.
  change (_send_feature_report [_REPORT_ID; _INIT_CMD])
    with (call_device (SendFeatureReport (padded [_REPORT_ID; _INIT_CMD]))).
  apply bind_ext. intros _ w1.
  unfold _get_feature_report, device_get_feature_report.
  rewrite !bind_assoc. apply bind_ext. intros _ w2.
  unfold device_release. unfold bind at 1. cbv beta iota.
  rewrite bind_assoc. apply bind_ext_run. intros u w3 E.
  apply call_device_ok_inv in E as (_ & _ & Hreply).
  etransitivity; [apply decode_stage |].
  unfold bind, ret. rewrite Hreply. reflexivity.
Qed.

Lemma initialize_run w :
  initialize w =
    (if enough (w_budget w) 3 then decode (w_reply w)
     else Raise TransportError,
     after w (allowed (w_budget w) init_calls) []).
Proof.
  rewrite initialize_script. unfold bind. rewrite run_calls_spec.
  cbn [List.length init_calls].
  destruct (enough (w_budget w) 3); reflexivity.
Qed.

(** X4: [initialize] sends the init command, reads once and releases, in
    this order, and stops at the first of these calls that the transport
    refuses.  Only when all three went through is the response the device
    gave looked at, and the outcome is then decided by the response alone:
    nothing else of the state of the transport or of the driver enters. *)
Theorem initialize_runs_script w :
  initialize w =
    (if enough (w_budget w) 3 then decode (w_reply w)
     else Raise TransportError,
     after w
       (allowed (w_budget w)
          [SendFeatureReport ([0xcc; 0x60] ++ repeat 0 62);
           GetFeatureReport 0xcc 64; Release]) []).
Proof. apply initialize_run. Qed.

(** ** What reaches the device *)

Lemma set_color_calls_written m c sp chans k a d :
  getitem _COLOR_MODES k = Ok m ->
  speed_bytes m a = Ok sp ->
  In (SendFeatureReport d) (set_color_calls m c sp chans) ->
  List.length d = 64%nat /\ nth 0 d 0 = _REPORT_ID.
Proof.
  intros Hm Hsp Hin.
  destruct (speed_bytes_length _ _ _ _ Hm Hsp)
    as (s0 & s1 & s2 & s3 & s4 & s5 & ->).
  unfold set_color_calls in Hin.
  apply in_app_or in Hin as [Hin | [Hin | [Hin | []]]].
  - apply in_map_iff in Hin as ([a1 a2] & Hd & _).
    destruct c as [[c0 c1] c2]. inversion Hd; subst d.
    rewrite settings_report_bytes. split; reflexivity.
  - inversion Hin; subst d. split; reflexivity.
  - discriminate.
Qed.

(** X5: whatever the operation and whatever its outcome, every feature
    report that has reached the device is exactly 64 bytes long and starts
    with the report identifier 0xCC. *)
Theorem reports_are_64_bytes op w o w' :
  run op w = (o, w') ->
  exists cs,
    w_calls w' = w_calls w ++ cs /\
    forall d, In (SendFeatureReport d) cs ->
              List.length d = 64%nat /\ nth 0 d 0 = 0xcc.
Proof.
  assert (Hnil : forall w1 : world, w_calls w1 = w_calls w ->
            exists cs, w_calls w1 = w_calls w ++ cs /\
              forall d, In (SendFeatureReport d) cs ->
                        List.length d = 64%nat /\ nth 0 d 0 = 0xcc).
  { intros w1 E. exists []. rewrite app_nil_r. split; [exact E | intros d []]. }
  destruct op as [| channel mode colors speed | |]; unfold run.
  - rewrite initialize_run. intros H. inversion H; subst.
    eexists. split; [reflexivity |].
    intros d Hin. apply In_allowed in Hin.
    destruct Hin as [Hin | [Hin | [Hin | []]]]; try discriminate.
    inversion Hin; subst d. split; reflexivity.
  - destruct (set_color channel mode colors speed w) as [r w1] eqn:Hrun.
    intros H. inversion H; subst o w1. clear H.
    pose proof Hrun as H. rewrite set_color_stages in H.
    destruct (getitem _COLOR_MODES (lower mode)) as [m | e0] eqn:Hm.
    2:{ inversion H; subst. apply Hnil. reflexivity. }
    destruct (single_color m colors) as [[c rest] | e0] eqn:Hc.
    2:{ inversion H; subst. apply Hnil. reflexivity. }
    cbv zeta in H.
    destruct (speed_bytes m (lower speed)) as [sp | e0] eqn:Hsp.
    2:{ inversion H; subst. apply Hnil.
        destruct (Nat.eqb (List.length rest) 0); reflexivity. }
    destruct (selected_channels (lower channel)) as [chans | e0] eqn:Hch.
    2:{ inversion H; subst. apply Hnil.
        destruct (Nat.eqb (List.length rest) 0); reflexivity. }
    clear H.
    assert (Hres : resolves channel mode colors speed m c rest sp chans)
      by (unfold resolves; auto).
    rewrite (set_color_resolved_run _ _ _ _ w _ _ _ _ _ Hres) in Hrun.
    inversion Hrun; subst. eexists. split; [reflexivity |].
    intros d Hin. apply In_allowed in Hin.
    exact (set_color_calls_written _ _ _ _ _ _ _ Hm Hsp Hin).
  - rewrite reset_all_channels_run. intros H. inversion H; subst.
    eexists. split; [reflexivity |].
    intros d Hin. apply In_allowed in Hin. cbn in Hin.
    repeat (destruct Hin as [Hin | Hin];
            [inversion Hin; subst d; split; reflexivity |]).
    destruct Hin.
  - intros H. inversion H; subst. apply Hnil. reflexivity.
Qed.

Lemma reports_are_64_bytes_witness :
  let op := SetColor "sync" "color-cycle" [] "slowest" in
  let w := fresh [] (Some 5%nat) in
  run op w = (Some TransportError, snd (run op w)) /\
  exists cs,
    w_calls (snd (run op w)) = w_calls w ++ cs /\
    forall d, In (SendFeatureReport d) cs ->
              List.length d = 64%nat /\ nth 0 d 0 = 0xcc.
Proof.
  intros op w.
  assert (H : run op w = (Some TransportError, snd (run op w)))
    by reflexivity.
  split; [exact H |].
  exact (reports_are_64_bytes op w _ _ H).
Defined.

(** X6: [_send_feature_report] never truncates: what it hands to the device
    starts with the whole of [data], is followed by zeros only, and is 64
    bytes long, or as long as [data] when [data] is longer than that. *)
Theorem send_feature_report_pads data w u w' :
  _send_feature_report data w = (Ok u, w') ->
  exists payload,
    w_calls w' = w_calls w ++ [SendFeatureReport payload] /\
    firstn (List.length data) payload = data /\
    Forall (fun b => b = 0) (skipn (List.length data) payload) /\
    List.length payload = Nat.max 64 (List.length data).
Proof.
  intros H.
  apply send_feature_report_inv in H as [[_ (Hc & _ & _)] | [Hr _]];
    [| discriminate].
  exists (padded data). split; [exact Hc |]. unfold padded.
  split; [| split].
  - rewrite firstn_app, firstn_all, Nat.sub_diag, firstn_0, app_nil_r.
    reflexivity.
  - rewrite skipn_app, skipn_all, Nat.sub_diag. cbn [skipn app].
    apply Forall_forall. intros b Hb. apply repeat_spec in Hb. exact Hb.
  - rewrite length_app, repeat_length. unfold _WRITE_LENGTH. lia.
Qed.

Lemma send_feature_report_pads_witness :
  let data := repeat 7 70 in
  let w := fresh [] None in
  let w' := snd (_send_feature_report data w) in
  _send_feature_report data w = (Ok tt, w') /\
  exists payload,
    w_calls w' = w_calls w ++ [SendFeatureReport payload] /\
    firstn (List.length data) payload = data /\
    Forall (fun b => b = 0) (skipn (List.length data) payload) /\
    List.length payload = Nat.max 64 (List.length data).
Proof.
  intros data w w'.
  assert (H : _send_feature_report data w = (Ok tt, w')) by reflexivity.
  split; [exact H |].
  exact (send_feature_report_pads data w tt w' H).
Defined.

(** ** The arguments of [set_color] *)

(** X7: [set_color] looks at its channel, mode and speed names only through
    [str.lower]: two calls whose names differ in letter case only have the
    same outcome and leave the same world. *)
Theorem set_color_ignores_case channel channel' mode mode' colors speed speed'
  w :
  lower channel = lower channel' ->
  lower mode = lower mode' ->
  lower speed = lower speed' ->
  set_color channel mode colors speed w =
  set_color channel' mode' colors speed' w.
Proof.
  intros Hch Hm Hsp. rewrite !set_color_stages, Hch, Hm, Hsp. reflexivity.
Qed.

Lemma set_color_ignores_case_witness :
  let w := fresh [] None in
  lower "LED3" = lower "Led3" /\
  lower "Double-Flash" = lower "DOUBLE-FLASH" /\
  lower "Fastest" = lower "fasTest" /\
  set_color "LED3" "Double-Flash" [(1, 2, 3)] "Fastest" w =
  set_color "Led3" "DOUBLE-FLASH" [(1, 2, 3)] "fasTest" w.
Proof.
  intros w. repeat (split; [reflexivity |]).
  exact (set_color_ignores_case "LED3" "Led3" "Double-Flash" "DOUBLE-FLASH"
           [(1, 2, 3)] "Fastest" "fasTest" w eq_refl eq_refl eq_refl).
Defined.

(** X8: once the mode is known and the color it takes, if it takes one, is
    there, the warning about left-over colors is decided: it is logged
    exactly when colors are left, once, with their number, and it is logged
    whether the call goes on to return or to raise (unknown speed, unknown
    channel, transport error).  The colors left are all the colors for a
    mode that takes none, and all but the first for a mode that takes one. *)
Theorem warning_counts_leftover_colors channel mode colors speed w r w' m :
  getitem _COLOR_MODES (lower mode) = Ok m ->
  (takes_color m = true -> colors <> []) ->
  set_color channel mode colors speed w = (r, w') ->
  let dropped := if takes_color m then tl colors else colors in
  w_warnings w' =
    w_warnings w ++
    (if Nat.eqb (List.length dropped) 0 then []
     else [mk_log_record "too many colors for mode=%s, dropping %d" (name m)
                         (List.length dropped)]).
Proof.
  intros Hm Hcol H dropped.
  assert (Hc : exists c, single_color m colors = Ok (c, dropped)).
  { unfold single_color, dropped. destruct (takes_color m) eqn:Htc.
    - destruct colors as [| [[r0 g0] b0] rest];
        [exfalso; apply (Hcol eq_refl); reflexivity |].
      eexists. reflexivity.
    - eexists. reflexivity. }
  destruct Hc as [c Hc].
  change (w_warnings w' = w_warnings w ++ too_many_colors m dropped).
  pose proof H as H0. rewrite set_color_stages, Hm, Hc in H. cbv zeta in H.
  assert (Hw1 : w_warnings
                  (if Nat.eqb (List.length dropped) 0 then w
                   else mk_world (w_calls w) (w_reply w) (w_budget w)
                          (w_warnings w ++ too_many_colors m dropped)) =
                w_warnings w ++ too_many_colors m dropped).
  { unfold too_many_colors.
    destruct (Nat.eqb (List.length dropped) 0); cbn; rewrite ?app_nil_r;
      reflexivity. }
  destruct (speed_bytes m (lower speed)) as [sp | e0] eqn:Hsp.
  2:{ inversion H; subst. exact Hw1. }
  destruct (selected_channels (lower channel)) as [chans | e0] eqn:Hch.
  2:{ inversion H; subst. exact Hw1. }
  assert (Hres : resolves channel mode colors speed m c dropped sp chans)
    by (unfold resolves; auto).
  rewrite (set_color_resolved_run _ _ _ _ w _ _ _ _ _ Hres) in H0.
  inversion H0; subst. reflexivity.
Qed.

Lemma warning_counts_leftover_colors_witness :
  let w := fresh [] None in
  let colors := [(1, 2, 3); (4, 5, 6)] in
  let r := fst (set_color "led9" "color-cycle" colors "normal" w) in
  let w' := snd (set_color "led9" "color-cycle" colors "normal" w) in
  getitem _COLOR_MODES (lower "color-cycle") = Ok mode_color_cycle /\
  (takes_color mode_color_cycle = true -> colors <> []) /\
  set_color "led9" "color-cycle" colors "normal" w = (r, w') /\
  r = Raise (KeyError "led9") /\
  w_warnings w' =
    [mk_log_record "too many colors for mode=%s, dropping %d" "color-cycle" 2].
Proof.
  intros w colors r w'.
  assert (Hcol : takes_color mode_color_cycle = true -> colors <> [])
    by discriminate.
  assert (H : set_color "led9" "color-cycle" colors "normal" w = (r, w'))
    by reflexivity.
  split; [reflexivity |]. split; [exact Hcol |]. split; [exact H |].
  split; [reflexivity |].
  exact (warning_counts_leftover_colors "led9" "color-cycle" colors "normal"
           w r w' mode_color_cycle eq_refl Hcol H).
Defined.

Lemma selected_channels_key k a :
  In (k, a) _COLOR_CHANNELS -> selected_channels k = Ok [a].
Proof.
  intros H. cbn in H.
  repeat (destruct H as [H | H]; [inversion H; subst; reflexivity |]).
  destruct H.
Qed.

(** X9: a call on one of the seven channel names, in any letter case, that
    returns has written exactly one 64-byte settings report, which starts
    with 0xCC and that channel's two address bytes, then the execute
    command, then released.  A "sync" call with the same mode, colors and
    speed writes seven reports, the one at that channel's place in the
    table being this very report, and each of them carrying the address
    bytes of its own channel and agreeing with this report on every byte
    from offset 3 on. *)
Theorem single_channel_write channel mode colors speed w u w' ws us ws' k a m c
  rest sp :
  In (k, a) _COLOR_CHANNELS ->
  lower channel = k ->
  getitem _COLOR_MODES (lower mode) = Ok m ->
  single_color m colors = Ok (c, rest) ->
  speed_bytes m (lower speed) = Ok sp ->
  set_color channel mode colors speed w = (Ok u, w') ->
  set_color "sync" mode colors speed ws = (Ok us, ws') ->
  exists report reports n,
    w_calls w' =
      w_calls w ++
      [SendFeatureReport report;
       SendFeatureReport ([0xcc; 0x28; 0xff] ++ repeat 0 61); Release] /\
    List.length report = 64%nat /\
    nth 0 report 0 = 0xcc /\
    nth 1 report 0 = fst a /\
    nth 2 report 0 = snd a /\
    w_calls ws' =
      w_calls ws ++ map SendFeatureReport reports ++
      [SendFeatureReport ([0xcc; 0x28; 0xff] ++ repeat 0 61); Release] /\
    Forall2
      (fun ka r =>
         nth 1 r 0 = fst (snd ka) /\ nth 2 r 0 = snd (snd ka) /\
         forall i, (3 <= i)%nat -> nth i r 0 = nth i report 0)
      _COLOR_CHANNELS reports /\
    nth_error _COLOR_CHANNELS n = Some (k, a) /\
    nth_error reports n = Some report.
Proof.
  intros Hin Hk Hm Hc Hsp H Hsync.
  destruct (speed_bytes_length _ _ _ _ Hm Hsp)
    as (s0 & s1 & s2 & s3 & s4 & s5 & ->).
  destruct c as [[c0 c1] c2].
  set (sp := [s0; s1; s2; s3; s4; s5]) in *.
  assert (Hres : resolves channel mode colors speed m (c0, c1, c2) rest sp [a]).
  { unfold resolves. rewrite Hk. auto using selected_channels_key. }
  assert (Hres' : resolves "sync" mode colors speed m (c0, c1, c2) rest sp
                           (values _COLOR_CHANNELS)).
  { unfold resolves. auto. }
  apply (set_color_ok_resolved _ _ _ _ _ _ _ _ _ _ _ _ Hres) in H
    as (Hcalls & _).
  apply (set_color_ok_resolved _ _ _ _ _ _ _ _ _ _ _ _ Hres') in Hsync
    as (Hcalls' & _).
  assert (Hn : exists n,
             nth_error _COLOR_CHANNELS n = Some (k, a) /\
             nth_error (map (settings_report m (c0, c1, c2) sp)
                            (values _COLOR_CHANNELS)) n =
               Some (settings_report m (c0, c1, c2) sp a)).
  { cbn in Hin.
    repeat (destruct Hin as [Hin | Hin];
            [inversion Hin; subst k a;
             first [ exists 0%nat; split; reflexivity
                   | exists 1%nat; split; reflexivity
                   | exists 2%nat; split; reflexivity
                   | exists 3%nat; split; reflexivity
                   | exists 4%nat; split; reflexivity
                   | exists 5%nat; split; reflexivity
                   | exists 6%nat; split; reflexivity ] |]).
    destruct Hin. }
  destruct Hn as (n & Hn1 & Hn2).
  exists (settings_report m (c0, c1, c2) sp a),
    (map (settings_report m (c0, c1, c2) sp) (values _COLOR_CHANNELS)), n.
  destruct a as [a1 a2].
  split; [exact Hcalls |].
  split; [reflexivity |]. split; [reflexivity |].
  split; [reflexivity |]. split; [reflexivity |].
  split; [rewrite Hcalls'; unfold set_color_calls; rewrite map_map;
          reflexivity |].
  split; [| split; [exact Hn1 | exact Hn2]].
  unfold values. cbn [map _COLOR_CHANNELS snd].
  repeat (apply Forall2_cons;
          [split; [reflexivity |]; split; [reflexivity |];
           intros i Hi; destruct i as [| [| [| i]]]; try lia; reflexivity |]).
  apply Forall2_nil.
Qed.

Lemma single_channel_write_witness :
  let w := fresh [] None in
  let w' := snd (set_color "LED4" "pulse" [(10, 20, 30)] "slower" w) in
  let ws' := snd (set_color "sync" "pulse" [(10, 20, 30)] "slower" w) in
  In ("led4", (0x23, 0x08)) _COLOR_CHANNELS /\
  lower "LED4" = "led4" /\
  set_color "LED4" "pulse" [(10, 20, 30)] "slower" w = (Ok tt, w') /\
  set_color "sync" "pulse" [(10, 20, 30)] "slower" w = (Ok tt, ws') /\
  exists report reports n,
    w_calls w' =
      w_calls w ++
      [SendFeatureReport report;
       SendFeatureReport ([0xcc; 0x28; 0xff] ++ repeat 0 61); Release] /\
    List.length report = 64%nat /\
    nth 0 report 0 = 0xcc /\
    nth 1 report 0 = 0x23 /\
    nth 2 report 0 = 0x08 /\
    w_calls ws' =
      w_calls w ++ map SendFeatureReport reports ++
      [SendFeatureReport ([0xcc; 0x28; 0xff] ++ repeat 0 61); Release] /\
    Forall2
      (fun ka r =>
         nth 1 r 0 = fst (snd ka) /\ nth 2 r 0 = snd (snd ka) /\
         forall i, (3 <= i)%nat -> nth i r 0 = nth i report 0)
      _COLOR_CHANNELS reports /\
    nth_error _COLOR_CHANNELS n = Some ("led4", (0x23, 0x08)) /\
    nth_error reports n = Some report.
Proof.
  intros w w' ws'.
  assert (Hin : In ("led4", (0x23, 0x08)) _COLOR_CHANNELS) by (cbn; tauto).
  assert (H : set_color "LED4" "pulse" [(10, 20, 30)] "slower" w = (Ok tt, w'))
    by reflexivity.
  assert (Hs : set_color "sync" "pulse" [(10, 20, 30)] "slower" w =
               (Ok tt, ws')) by reflexivity.
  split; [exact Hin |]. split; [reflexivity |]. split; [exact H |].
  split; [exact Hs |].
  exact (single_channel_write "LED4" "pulse" [(10, 20, 30)] "slower"
           w tt w' w tt ws' "led4" (0x23, 0x08) mode_pulse (30, 20, 10) []
           [0x78; 0x05; 0x78; 0x05; 0xbc; 0x02]
           Hin eq_refl eq_refl eq_refl eq_refl H Hs).
Defined.

(** ** The response to [initialize] *)

Lemma allowed_enough budget cs :
  enough budget (List.length cs) = true -> allowed budget cs = cs.
Proof.
  destruct budget as [b |]; [| reflexivity]. cbn. intros H.
  apply Nat.leb_le in H. apply firstn_all2. exact H.
Qed.

Lemma list_index_app x nm tail :
  Forall (fun b => b <> x) nm ->
  list_index x (nm ++ x :: tail) = Some (List.length nm).
Proof.
  induction 1 as [| b nm Hb _ IH]; cbn.
  - rewrite Z.eqb_refl. reflexivity.
  - apply Z.eqb_neq in Hb. rewrite Hb, IH. reflexivity.
Qed.

Lemma list_index_None x l :
  (forall i, nth_error l i <> Some x) -> list_index x l = None.
Proof.
  intros H. destruct (list_index x l) as [i |] eqn:E; [| reflexivity].
  apply list_index_Some in E as [E _]. exfalso. exact (H i E).
Qed.

(** X10: a response that starts with 0xCC, 1 and holds, from offset 12 on,
    non-zero bytes followed by a zero byte is decoded whatever it holds at
    offsets 2 and 8-11 and after that zero byte: these bytes are never
    looked at.  The name is read from the bytes between offset 12 and the
    zero byte, the version from bytes 4-7 and the channel count from
    byte 3. *)
Theorem initialize_decodes_frame w x2 channels v0 v1 v2 v3 x8 x9 x10 x11 nm
  tail :
  enough (w_budget w) 3 = true ->
  w_reply w =
    [0xcc; 0x01; x2; channels; v0; v1; v2; v3; x8; x9; x10; x11] ++
    nm ++ 0 :: tail ->
  Forall (fun b => 0 < b < 256) nm ->
  fst (initialize w) =
    Ok [ ("Hardware name", PyStr (str_ascii_ignore nm), "");
         ("Firmware version",
          PyStr (fmt_d v0 ++ "." ++ fmt_d v1 ++ "." ++ fmt_d v2 ++ "." ++
                 fmt_d v3)%string, "");
         ("LED channnels", PyInt channels, "") ].
Proof.
  intros Hb Hreply Hnm. rewrite initialize_run, Hb, Hreply. cbn [fst].
  unfold decode. cbn [assert_handshake item nth_error app].
  change (Z.eqb 0xcc _REPORT_ID) with true. cbn [Z.eqb Pos.eqb].
  unfold index_from. cbn [skipn].
  rewrite list_index_app
    by (eapply Forall_impl; [| exact Hnm]; cbn; intros; lia).
  unfold slice at 1. cbn [skipn].
  replace (12 + List.length nm - 12)%nat with (List.length nm) by lia.
  rewrite firstn_app, firstn_all, Nat.sub_diag, firstn_0, app_nil_r.
  rewrite bytes_in_range
    by (eapply Forall_impl; [| exact Hnm]; cbn; intros; lia).
  reflexivity.
Qed.

Lemma initialize_decodes_frame_witness :
  let nm := [71; 73; 71; 65; 66; 89; 84; 69] in
  let w :=
    fresh ([0xcc; 0x01; 0xff; 8; 2; 0; 11; 0; 9; 9; 9; 9] ++
           nm ++ 0 :: [1; 2; 3]) (Some 3%nat) in
  enough (w_budget w) 3 = true /\
  Forall (fun b => 0 < b < 256) nm /\
  fst (initialize w) =
    Ok [ ("Hardware name", PyStr "GIGABYTE", "");
         ("Firmware version", PyStr "2.0.11.0", "");
         ("LED channnels", PyInt 8, "") ].
Proof.
  intros nm w.
  assert (Hnm : Forall (fun b => 0 < b < 256) nm)
    by (repeat constructor).
  split; [reflexivity |]. split; [exact Hnm |].
  exact (initialize_decodes_frame w 0xff 8 2 0 11 0 9 9 9 9 nm [1; 2; 3]
           eq_refl eq_refl Hnm).
Defined.

(** *** The hardware name *)

Lemma char_codes_length s : List.length (char_codes s) = String.length s.
Proof.
  unfold char_codes. rewrite length_map.
  induction s as [| c s IH]; cbn; [reflexivity | rewrite IH; reflexivity].
Qed.

(** Decoding with [errors='ignore'] keeps the bytes below 128, in order, one
    character each, and drops the others. *)
Lemma char_codes_str_ascii_ignore l :
  Forall (fun b => 0 <= b < 256) l ->
  char_codes (str_ascii_ignore l) = filter (fun b => b <? 128) l.
Proof.
  unfold char_codes, str_ascii_ignore.
  rewrite list_ascii_of_string_of_list_ascii, map_map.
  induction 1 as [| b l Hb _ IH]; [reflexivity |].
  cbn [filter]. destruct (b <? 128) eqn:E; [| exact IH].
  cbn [map]. rewrite IH, N_ascii_embedding by lia.
  rewrite Z2N.id by lia. reflexivity.
Qed.

Lemma bytes_Ok l raw :
  bytes l = Ok raw -> raw = l /\ Forall (fun b => 0 <= b < 256) l.
Proof.
  unfold bytes.
  destruct (forallb (fun x => (0 <=? x) && (x <? 256)) l) eqn:E;
    [| discriminate].
  intros H. inversion H; subst raw. split; [reflexivity |].
  apply Forall_forall. intros x Hx.
  rewrite forallb_forall in E. specialize (E x Hx).
  apply andb_true_iff in E. lia.
Qed.

(** What [decode] returns, with what it has checked on the way. *)
Lemma decode_Ok_name data res :
  decode data = Ok res ->
  exists null rest,
    res = ("Hardware name", PyStr (str_ascii_ignore (slice data 12 null)), "")
          :: rest /\
    (12 <= null < List.length data)%nat /\
    nth_error data null = Some 0 /\
    (forall i, (12 <= i < null)%nat -> nth_error data i <> Some 0) /\
    Forall (fun b => 0 <= b < 256) (slice data 12 null).
Proof.
  unfold decode.
  destruct (assert_handshake data) as [u | e]; [| discriminate].
  destruct (index_from 0 12 data) as [null | e] eqn:Hi; [| discriminate].
  destruct (bytes (slice data 12 null)) as [raw | e] eqn:Hb; [| discriminate].
  destruct (fmt_version (slice data 4 8)) as [fw | e]; [| discriminate].
  destruct (item data 3) as [channels | e]; [| discriminate].
  intros H. inversion H; subst res. clear H.
  apply index_from_Ok in Hi as (Hle & Hnull & Hmin).
  apply bytes_Ok in Hb as [-> Hrange].
  exists null. eexists. split; [reflexivity |].
  split; [| auto].
  split; [exact Hle |]. apply nth_error_Some. rewrite Hnull. discriminate.
Qed.

Lemma initialize_Ok_decode w res w' :
  initialize w = (Ok res, w') -> decode (w_reply w) = Ok res.
Proof.
  rewrite initialize_run. destruct (enough (w_budget w) 3); [| discriminate].
  intros H. inversion H. reflexivity.
Qed.

(** X11: the hardware name that [initialize] returns has one character per
    byte below 128 of the response between offset 12 and the first zero
    byte from there on, in the same order and with that byte as its code;
    bytes from 128 up are dropped without an error. *)
Theorem hardware_name_codes w res w' :
  initialize w = (Ok res, w') ->
  exists null name,
    hardware_name res = Some name /\
    (12 <= null)%nat /\
    nth_error (w_reply w) null = Some 0 /\
    (forall i, (12 <= i < null)%nat -> nth_error (w_reply w) i <> Some 0) /\
    char_codes name =
      filter (fun b => b <? 128) (slice (w_reply w) 12 null).
Proof.
  intros H. apply initialize_Ok_decode in H.
  apply decode_Ok_name in H
    as (null & rest & -> & [Hle _] & Hnull & Hmin & Hrange).
  exists null. eexists. split; [reflexivity |].
  repeat (split; [assumption |]).
  apply char_codes_str_ascii_ignore. exact Hrange.
Qed.

Lemma hardware_name_codes_witness :
  let w := fresh [0xcc; 0x01; 0; 7; 1; 0; 10; 2; 0; 0; 0; 0;
                  73; 84; 200; 69; 0; 5] None in
  let res := [ ("Hardware name", PyStr "ITE", "");
               ("Firmware version", PyStr "1.0.10.2", "");
               ("LED channnels", PyInt 7, "") ] in
  initialize w = (Ok res, snd (initialize w)) /\
  exists null name,
    hardware_name res = Some name /\
    (12 <= null)%nat /\
    nth_error (w_reply w) null = Some 0 /\
    (forall i, (12 <= i < null)%nat -> nth_error (w_reply w) i <> Some 0) /\
    char_codes name =
      filter (fun b => b <? 128) (slice (w_reply w) 12 null).
Proof.
  intros w res.
  assert (H : initialize w = (Ok res, snd (initialize w))) by reflexivity.
  split; [exact H |].
  exact (hardware_name_codes w res _ H).
Defined.

Lemma In_slice_nth data i j x :
  In x (slice data i j) ->
  exists k, (i <= k < j)%nat /\ nth_error data k = Some x.
Proof.
  unfold slice. intros H. apply In_nth_error in H as [n Hn].
  rewrite nth_error_firstn in Hn.
  destruct (Nat.ltb n (j - i)) eqn:E; [| discriminate].
  apply Nat.ltb_lt in E. rewrite nth_error_skipn in Hn.
  exists (i + n)%nat. split; [lia | exact Hn].
Qed.

Lemma slice_length data i j : (List.length (slice data i j) <= j - i)%nat.
Proof. unfold slice. apply firstn_le_length. Qed.

Lemma filter_length_le {A : Type} (f : A -> bool) l :
  (List.length (filter f l) <= List.length l)%nat.
Proof.
  induction l as [| a l IH]; cbn; [lia |]. destruct (f a); cbn; lia.
Qed.

(** X12: the hardware name that [initialize] returns is at most 13
    characters shorter than the response is long (51 characters for a
    64-byte response), and each of its characters is a 7-bit character
    other than NUL. *)
Theorem hardware_name_bounded w res w' :
  initialize w = (Ok res, w') ->
  exists name,
    hardware_name res = Some name /\
    (String.length name + 13 <= List.length (w_reply w))%nat /\
    Forall (fun b => 0 < b < 128) (char_codes name).
Proof.
  intros H. apply initialize_Ok_decode in H.
  apply decode_Ok_name in H
    as (null & rest & -> & [Hle Hlt] & Hnull & Hmin & Hrange).
  eexists. split; [reflexivity |].
  rewrite <- char_codes_length.
  rewrite (char_codes_str_ascii_ignore _ Hrange).
  split.
  - pose proof (filter_length_le (fun b => b <? 128)
                                 (slice (w_reply w) 12 null)).
    pose proof (slice_length (w_reply w) 12 null). lia.
  - apply Forall_forall. intros b Hb. apply filter_In in Hb as [Hin H128].
    rewrite Forall_forall in Hrange. specialize (Hrange b Hin).
    apply In_slice_nth in Hin as (k & Hk & Hnth).
    assert (b <> 0) by (intros ->; exact (Hmin k Hk Hnth)).
    lia.
Qed.

Lemma hardware_name_bounded_witness :
  let w := fresh [0xcc; 0x01; 0; 7; 1; 0; 10; 2; 0; 0; 0; 0;
                  73; 84; 200; 69; 0; 5] None in
  let res := [ ("Hardware name", PyStr "ITE", "");
               ("Firmware version", PyStr "1.0.10.2", "");
               ("LED channnels", PyInt 7, "") ] in
  initialize w = (Ok res, snd (initialize w)) /\
  exists name,
    hardware_name res = Some name /\
    (String.length name + 13 <= List.length (w_reply w))%nat /\
    Forall (fun b => 0 < b < 128) (char_codes name).
Proof.
  intros w res.
  assert (H : initialize w = (Ok res, snd (initialize w))) by reflexivity.
  split; [exact H |].
  exact (hardware_name_bounded w res _ H).
Defined.

(** X13: a response whose first two bytes pass the assertion but that holds
    no zero byte from offset 12 on (a name that fills the report, or a
    response of fewer than 13 bytes) makes [initialize] raise the
    [ValueError] of [list.index]; the device has been released by then. *)
Theorem initialize_missing_terminator w :
  enough (w_budget w) 3 = true ->
  nth_error (w_reply w) 0 = Some 0xcc ->
  nth_error (w_reply w) 1 = Some 0x01 ->
  (forall i, (12 <= i)%nat -> nth_error (w_reply w) i <> Some 0) ->
  exists w',
    initialize w = (Raise (ValueError "0 is not in list"), w') /\
    w_calls w' =
      w_calls w ++
      [SendFeatureReport ([0xcc; 0x60] ++ repeat 0 62);
       GetFeatureReport 0xcc 64; Release].
Proof.
  intros Hb H0 H1 Hnone.
  rewrite initialize_run, Hb, (allowed_enough _ init_calls Hb).
  exists (after w init_calls []). split; [| reflexivity]. f_equal.
  unfold decode, assert_handshake, item. rewrite H0, H1.
  change (Z.eqb 0xcc _REPORT_ID) with true. cbn [Z.eqb Pos.eqb].
  unfold index_from. rewrite list_index_None; [reflexivity |].
  intros i Hi. rewrite nth_error_skipn in Hi.
  apply (Hnone (12 + i)%nat); [lia | exact Hi].
Qed.

Lemma initialize_missing_terminator_witness :
  let w := fresh ([0xcc; 0x01; 0; 7; 1; 0; 10; 2; 0; 0; 0; 0] ++ repeat 65 52)
                 None in
  List.length (w_reply w) = 64%nat /\
  enough (w_budget w) 3 = true /\
  exists w',
    initialize w = (Raise (ValueError "0 is not in list"), w') /\
    w_calls w' =
      w_calls w ++
      [SendFeatureReport ([0xcc; 0x60] ++ repeat 0 62);
       GetFeatureReport 0xcc 64; Release].
Proof.
  intros w. split; [reflexivity |]. split; [reflexivity |].
  apply (initialize_missing_terminator w eq_refl eq_refl eq_refl).
  intros i Hi Hnth. replace i with (12 + (i - 12))%nat in Hnth by lia.
  rewrite <- nth_error_skipn in Hnth. apply nth_error_In in Hnth.
  apply repeat_spec in Hnth. discriminate Hnth.
Defined.

Lemma decode_Raise data e :
  decode data = Raise e ->
  e = AssertionError \/
  e = ValueError "0 is not in list" \/
  e = ValueError "bytes must be in range(0, 256)" \/
  (e = IndexError /\ (List.length data < 2)%nat).
Proof.
  unfold decode.
  destruct (assert_handshake data) as [u | e0] eqn:Ha.
  - destruct (index_from 0 12 data) as [null | e0] eqn:Hi.
    + apply index_from_Ok in Hi as (Hle & Hnull & _).
      assert (Hlen : (null < List.length data)%nat).
      { apply nth_error_Some. rewrite Hnull. discriminate. }
      destruct (bytes (slice data 12 null)) as [raw | e0] eqn:Hb.
      * destruct (slice_4_8 data) as (v0 & v1 & v2 & v3 & ->); [lia |].
        cbn [fmt_version]. unfold item.
        destruct (nth_error data 3) eqn:H3; [discriminate |].
        apply nth_error_None in H3. lia.
      * unfold bytes in Hb. destruct (forallb _ _); inversion Hb.
        intros H. inversion H. auto.
    + unfold index_from in Hi. destruct (list_index 0 (skipn 12 data));
        inversion Hi. intros H. inversion H. auto.
  - intros H. inversion H; subst e0. clear H.
    unfold assert_handshake, item in Ha.
    destruct (nth_error data 0) as [b0 |] eqn:H0.
    + destruct (Z.eqb b0 _REPORT_ID).
      * destruct (nth_error data 1) as [b1 |] eqn:H1.
        -- destruct (Z.eqb b1 0x01); inversion Ha. auto.
        -- inversion Ha. apply nth_error_None in H1. right. right. right.
           split; [reflexivity | lia].
      * inversion Ha. auto.
    + inversion Ha. apply nth_error_None in H0. right. right. right.
      split; [reflexivity | lia].
Qed.

(** X14: when [initialize] raises, it raises the transport's error, the
    assertion error, the [ValueError] of [list.index] (no terminator), the
    [ValueError] of [bytes] (an element outside 0..255) or, for a response
    of fewer than two bytes only, an [IndexError].  Formatting the version
    and reading the channel count never fail: once the terminator has been
    found at offset 12 or later, bytes 3 to 7 are there. *)
Theorem initialize_raises_only w e w' :
  initialize w = (Raise e, w') ->
  e = TransportError \/
  e = AssertionError \/
  e = ValueError "0 is not in list" \/
  e = ValueError "bytes must be in range(0, 256)" \/
  (e = IndexError /\ (List.length (w_reply w) < 2)%nat).
Proof.
  rewrite initialize_run. destruct (enough (w_budget w) 3).
  - intros H. inversion H as [[Hd Hw]]. right. exact (decode_Raise _ _ Hd).
  - intros H. inversion H. left. reflexivity.
Qed.

Lemma initialize_raises_only_witness :
  let w := fresh [0xcc] None in
  initialize w = (Raise IndexError, snd (initialize w)) /\
  (IndexError = TransportError \/
   IndexError = AssertionError \/
   IndexError = ValueError "0 is not in list" \/
   IndexError = ValueError "bytes must be in range(0, 256)" \/
   (IndexError = IndexError /\ (List.length (w_reply w) < 2)%nat)).
Proof.
  intros w.
  assert (H : initialize w = (Raise IndexError, snd (initialize w)))
    by reflexivity.
  split; [exact H |].
  exact (initialize_raises_only w IndexError _ H).
Defined.

(** ** [probe] *)

(** X15: [probe] yields what the probe of the base class yields for the
    handle, or nothing: on a platform whose name starts with "linux" it is
    the base probe, and [hidinfo] is not consulted (a handle without a
    [usage] entry is accepted); elsewhere the handle is accepted exactly
    when its [usage] is 0xCC, and a handle without [usage] raises
    [KeyError].  So whatever is accepted somewhere is accepted on Linux. *)
Theorem probe_filters_by_usage {D : Type} platform hidinfo
  (super_probe : result (list D)) :
  (String.prefix "linux" platform = true ->
   probe platform hidinfo super_probe = super_probe) /\
  (String.prefix "linux" platform = false ->
   probe platform hidinfo super_probe =
     match dict_find hidinfo "usage" with
     | None => Raise (KeyError "usage")
     | Some usage => if Z.eqb usage 0xcc then super_probe else Ok []
     end) /\
  (forall ds d,
     probe platform hidinfo super_probe = Ok ds -> In d ds ->
     super_probe = Ok ds /\
     forall hidinfo', probe "linux" hidinfo' super_probe = Ok ds).
Proof.
  unfold probe, getitem. split; [intros -> ; reflexivity |].
  split.
  - intros ->. cbn [negb]. destruct (dict_find hidinfo "usage") as [u |];
      [| reflexivity].
    change _REPORT_ID with 0xcc. destruct (Z.eqb u 0xcc); reflexivity.
  - intros ds d H Hin.
    assert (Hs : super_probe = Ok ds).
    { destruct (String.prefix "linux" platform); cbn [negb] in H;
        [exact H |].
      destruct (dict_find hidinfo "usage") as [u |]; [| discriminate].
      destruct (Z.eqb u _REPORT_ID); cbn [negb] in H; [exact H |].
      inversion H; subst ds. destruct Hin. }
    split; [exact Hs |]. intros hidinfo'. exact Hs.
Qed.

Lemma probe_filters_by_usage_witness :
  String.prefix "linux" "win32" = false /\
  probe "win32" [("usage", 0xff89); ("usage_page", 0xff89)] (Ok [tt]) =
    Ok [] /\
  probe "win32" [("usage", 0xcc); ("usage_page", 0xff89)] (Ok [tt]) =
    Ok [tt] /\
  probe "darwin" [("usage_page", 0xff89)] (Ok [tt]) =
    Raise (KeyError "usage") /\
  probe "linux2" [] (Ok [tt]) = Ok [tt].
Proof.
  split; [reflexivity |].
  split; [exact (proj1 (proj2 (probe_filters_by_usage "win32"
            [("usage", 0xff89); ("usage_page", 0xff89)] (Ok [tt]))) eq_refl) |].
  repeat split.
Defined.

(** ** The outcome of [initialize] *)

(** [%d] writes the decimal numeral of its argument. *)
Lemma fmt_d_reads_as v : reads_as (fmt_d v) v.
Proof.
  unfold reads_as, fmt_d.
  assert (Hpos : Z.to_int v <> Decimal.Pos Decimal.Nil).
  { intros E. pose proof (DecimalZ.of_to v) as Hv. rewrite E in Hv.
    cbn in Hv. subst v. discriminate E. }
  assert (Hneg : Z.to_int v <> Decimal.Neg Decimal.Nil).
  { intros E. pose proof (DecimalZ.of_to v) as Hv. rewrite E in Hv.
    cbn in Hv. subst v. discriminate E. }
  rewrite (NilZero.isi _ Hpos Hneg). cbn [option_map].
  rewrite DecimalZ.of_to. reflexivity.
Qed.

Lemma slice_4_8_nth data v0 v1 v2 v3 :
  slice data 4 8 = [v0; v1; v2; v3] ->
  nth_error data 4 = Some v0 /\ nth_error data 5 = Some v1 /\
  nth_error data 6 = Some v2 /\ nth_error data 7 = Some v3.
Proof.
  destruct data as [| d0 [| d1 [| d2 [| d3 [| d4 [| d5 [| d6 [| d7 t]]]]]]]];
    cbn; intros H; inversion H; subst; repeat split.
Qed.

(** What [decode] returns is what the response stands for. *)
Lemma decode_Ok_decoded data res :
  decode data = Ok res -> decoded_from data res.
Proof.
  unfold decode.
  destruct (assert_handshake data) as [u | e] eqn:Ha; [| discriminate].
  destruct (index_from 0 12 data) as [null | e] eqn:Hi; [| discriminate].
  destruct (bytes (slice data 12 null)) as [raw | e] eqn:Hb; [| discriminate].
  destruct (fmt_version (slice data 4 8)) as [fw | e] eqn:Hf; [| discriminate].
  destruct (item data 3) as [channels | e] eqn:Hc; [| discriminate].
  intros H. inversion H; subst res. clear H.
  apply assert_handshake_Ok in Ha as [H0 H1].
  apply index_from_Ok in Hi as (Hle & Hnull & Hmin).
  apply bytes_Ok in Hb as [-> Hrange].
  apply fmt_version_Ok in Hf as (v0 & v1 & v2 & v3 & Hslice & ->).
  apply slice_4_8_nth in Hslice as (H4 & H5 & H6 & H7).
  unfold item in Hc.
  destruct (nth_error data 3) as [c3 |] eqn:H3; inversion Hc; subst c3.
  exists null, (str_ascii_ignore (slice data 12 null)),
    (fmt_d v0 ++ "." ++ fmt_d v1 ++ "." ++ fmt_d v2 ++ "." ++ fmt_d v3)%string,
    channels, v0, v1, v2, v3, (fmt_d v0), (fmt_d v1), (fmt_d v2), (fmt_d v3).
  split; [reflexivity |].
  split; [exact H0 |]. split; [exact H1 |]. split; [exact Hle |].
  split; [exact Hnull |]. split; [exact Hmin |].
  split; [apply char_codes_str_ascii_ignore; exact Hrange |].
  split; [exact H3 |].
  split; [exact H4 |]. split; [exact H5 |]. split; [exact H6 |].
  split; [exact H7 |]. split; [reflexivity |].
  repeat split; apply fmt_d_reads_as.
Qed.

(** C10: whenever byte 0 of the response is not 0xCC or byte 1 is not 1,
    [initialize] raises the assertion error, whatever the rest of the
    response holds; when it returns, the response starts with 0xCC, 1, the
    name is the text whose character codes are the bytes below 128 from
    offset 12 up to the first zero byte, the version is made of the decimal
    numerals of bytes 4-7 joined by dots and the channel count is byte 3;
    and a well-formed response makes it return.  The device is sent the
    init command, read once and released, in this order, before the
    response is looked at. *)
Theorem initialize_validates_then_decodes w r w' :
  initialize w = (r, w') ->
  r <> Raise TransportError ->
  let data := w_reply w in
  w_calls w' =
    w_calls w ++
    [SendFeatureReport ([0xcc; 0x60] ++ repeat 0 62);
     GetFeatureReport 0xcc 64; Release] /\
  (forall b0 b1,
     nth_error data 0 = Some b0 -> nth_error data 1 = Some b1 ->
     b0 <> 0xcc \/ b1 <> 0x01 ->
     r = Raise AssertionError) /\
  (forall res, r = Ok res -> decoded_from data res) /\
  (forall i,
     nth_error data 0 = Some 0xcc -> nth_error data 1 = Some 0x01 ->
     (12 <= i)%nat -> nth_error data i = Some 0 ->
     Forall (fun x => 0 <= x < 256) data ->
     exists res, r = Ok res).
Proof.
  intros H Hr data.
  apply initialize_inv in H as [[H _] | [-> (Hcalls & _ & _)]];
    [contradiction |].
  split; [exact Hcalls |]. split; [| split].
  - intros b0 b1. apply decode_bad_handshake.
  - intros res. apply decode_Ok_decoded.
  - intros i. apply decode_total.
Qed.

Lemma initialize_validates_then_decodes_witness :
  let reply := [0xcc; 0x01; 0; 7; 1; 0; 10; 2; 0; 0; 0; 0;
                90; 52; 57; 48; 200; 0; 33; 0] in
  let res := [ ("Hardware name", PyStr "Z490", "");
               ("Firmware version", PyStr "1.0.10.2", "");
               ("LED channnels", PyInt 7, "") ] in
  let w := fresh reply None in
  let w' := snd (initialize w) in
  initialize w = (Ok res, w') /\
  Ok res <> Raise TransportError /\
  w_calls w' =
    w_calls w ++
    [SendFeatureReport ([0xcc; 0x60] ++ repeat 0 62);
     GetFeatureReport 0xcc 64; Release] /\
  decoded_from reply res.
Proof.
  intros reply res w w'.
  assert (Hrun : initialize w = (Ok res, w')) by reflexivity.
  assert (Hr : Ok res <> Raise TransportError) by discriminate.
  split; [exact Hrun |]. split; [exact Hr |].
  destruct (initialize_validates_then_decodes w (Ok res) w' Hrun Hr)
    as (Hcalls & _ & Hdec & _).
  split; [exact Hcalls |]. exact (Hdec res eq_refl).
Defined.
